(** * Taxi-demand forecasting: the repository's own code, embedded and verified

    The repository is thin orchestration around third-party libraries
    (h3, pandas, geopandas, shapely).  The embedding follows that shape:

    - [Py]      : the Python values, exceptions and the effect monad
                  (a trace of log records and file operations, plus
                  exceptions) that the wrappers of [src/utils.py] and
                  [src/data_loader.py] run in;
    - [Libraries] : the third-party entry points the code calls, as
                  interfaces (type classes), with the parts of their
                  documented contracts the properties rest on;
    - [Config]  : the constants of [src/config.py];
    - [Utils]   : [src/utils.py];
    - [DataLoader] : [src/data_loader.py];
    - [Pipeline]: the demand aggregator and the lag features;
    - [Reference]: small concrete libraries, used to run the code on
                  concrete inputs;
    - the properties, module by module;
    - [Download], [ConfigImport]: the file download utility of
                  [src/utils.py] and the directory set-up of
                  [src/config.py], over a state of files, requests and
                  directories, with their properties;
    - [StatefulLibraries]: [geo_to_h3_safe] over libraries that keep a
                  state, for the question of determinism. *)

From Stdlib Require Import ZArith List String Bool Lia PeanoNat.
From Stdlib Require HexString.
From Stdlib Require Import Ascii.
Import ListNotations.

Local Open Scope string_scope.
Local Open Scope list_scope.

#[local] Set Warnings "-register-all".

(* ================================================================== *)
(** ** Python values, exceptions, effects *)

Module Py.

(** A Python [float]: only the distinction between NaN and the other
    values matters to the code; finite values are kept as [m * 2^e]. *)
Inductive pyfloat : Type :=
| FNaN
| FInf (negative : bool)
| FFinite (m e : Z).

Definition isnan (f : pyfloat) : bool :=
  match f with FNaN => true | _ => false end.

Definition float_is_zero (f : pyfloat) : bool :=
  match f with FFinite m _ => Z.eqb m 0 | _ => false end.

(** The values the wrappers can be handed or can build.  [VArray] is a
    one-dimensional numpy array (what [pd.isna] returns on a list). *)
Inductive pyval : Type :=
| VNone
| VBool (b : bool)
| VInt (z : Z)
| VFloat (f : pyfloat)
| VStr (s : string)
| VTuple (items : list pyval)
| VList (items : list pyval)
| VDict (items : list (string * pyval))
| VArray (elts : list pyval).

(** A [pathlib.Path], as its components. *)
Definition path := list string.

(** A [DataFrame] (and a [GeoDataFrame]): its rows, each a mapping from
    column name to value. *)
Definition DataFrame := list (list (string * pyval)).
Definition GeoDataFrame := DataFrame.

(** f-strings are kept structured: literal text and the interpolated
    objects.  An exception carries its class name and its message. *)
Inductive fpart : Type :=
| FText (s : string)
| FVal (v : pyval)
| FNum (n : Z)
| FPath (p : path)
| FExc (e : exn)
with exn : Type :=
| Exn (cls : string) (msg : list fpart).

Definition fstring := list fpart.

Definition exn_class (e : exn) : string := match e with Exn c _ => c end.

(** Result of evaluating an expression: a value, or a raised instance of
    [Exception] (the class every [except Exception] handler catches). *)
Inductive outcome (A : Type) : Type :=
| Normal (a : A)
| Raise (e : exn).
Arguments Normal {A} a.
Arguments Raise {A} e.

Inductive level : Type := INFO | WARNING | ERROR.

(** What a run leaves behind: log records (the root logger is configured
    at level INFO, so every record is emitted), printed text, and the
    file operations performed. *)
Inductive event : Type :=
| Log (lv : level) (msg : fstring)
| Printed (frame : DataFrame)
| FileOp (op : string) (p : path).

Definition trace := list event.

(** Computations: the trace is threaded, and is kept when an exception
    is raised. *)
Definition M (A : Type) : Type := trace -> outcome A * trace.

Definition ret {A} (a : A) : M A := fun t => (Normal a, t).

Definition bind {A B} (m : M A) (k : A -> M B) : M B :=
  fun t => match m t with
           | (Normal a, t') => k a t'
           | (Raise e, t') => (Raise e, t')
           end.

Definition raise {A} (e : exn) : M A := fun t => (Raise e, t).

Definition lift {A} (o : outcome A) : M A := fun t => (o, t).

Definition emit (ev : event) : M unit := fun t => (Normal tt, t ++ [ev]).

(** [try: body except Exception as e: handler e] *)
Definition try_except {A} (body : M A) (handler : exn -> M A) : M A :=
  fun t => match body t with
           | (Normal a, t') => (Normal a, t')
           | (Raise e, t') => handler e t'
           end.

Definition logger_info (msg : fstring) : M unit := emit (Log INFO msg).
Definition logger_warning (msg : fstring) : M unit := emit (Log WARNING msg).
Definition logger_error (msg : fstring) : M unit := emit (Log ERROR msg).
Definition print (frame : DataFrame) : M unit := emit (Printed frame).

(** Truth value of an object, as [if] and [or] test it.  A numpy array
    with more than one element has no truth value (ValueError). *)
Fixpoint py_bool (v : pyval) : outcome bool :=
  match v with
  | VNone => Normal false
  | VBool b => Normal b
  | VInt z => Normal (negb (Z.eqb z 0))
  | VFloat f => Normal (negb (float_is_zero f))
  | VStr s => Normal (negb (String.eqb s ""))
  | VTuple items => Normal (negb (Nat.eqb (List.length items) 0))
  | VList items => Normal (negb (Nat.eqb (List.length items) 0))
  | VDict items => Normal (negb (Nat.eqb (List.length items) 0))
  | VArray elts =>
      match elts with
      | [] => Normal false
      | [x] => py_bool x
      | _ :: _ :: _ =>
          Raise (Exn "ValueError"
                   [FText "The truth value of an array with more than one element is ambiguous. Use a.any() or a.all()"])
      end
  end.

(** [d[key]] on a dict literal, [None] when the key is absent. *)
Fixpoint assoc (key : string) (items : list (string * pyval)) : option pyval :=
  match items with
  | [] => None
  | (k, v) :: rest => if String.eqb k key then Some v else assoc key rest
  end.

Definition dict_get (d : pyval) (key : string) : option pyval :=
  match d with
  | VDict items => assoc key items
  | _ => None
  end.

(** A real number in the sense of a C [double] argument. *)
Definition is_real (v : pyval) : bool :=
  match v with
  | VFloat _ | VInt _ | VBool _ => true
  | _ => false
  end.

(** The null/NaN coordinate of the raw data: [None] or a float NaN. *)
Definition is_missing (v : pyval) : bool :=
  match v with
  | VNone => true
  | VFloat f => isnan f
  | _ => false
  end.

End Py.

Export Py.

Declare Scope py_scope.
Delimit Scope py_scope with py.
Notation "x <- m ;; k" := (bind m (fun x => k))
  (at level 61, m at next level, right associativity) : py_scope.
Notation "m ;;; k" := (bind m (fun _ => k))
  (at level 61, right associativity) : py_scope.

(* ================================================================== *)
(** ** Third-party libraries, as interfaces *)

Module Libraries.

(** [pandas.isna] *)
Class Pandas : Type := {
  pd_isna : pyval -> outcome pyval
}.

(** What the properties use of [pandas.isna]: on a scalar it returns a
    bool, true exactly on [None] and NaN. *)
Class PandasContract `{Pandas} : Prop := {
  isna_None : pd_isna VNone = Normal (VBool true);
  isna_float : forall f, pd_isna (VFloat f) = Normal (VBool (isnan f));
  isna_int : forall z, pd_isna (VInt z) = Normal (VBool false);
  isna_bool : forall b, pd_isna (VBool b) = Normal (VBool false)
}.

(** The h3 (v3 API) entry points.
    - [h3.geo_to_h3(lat, lng, resolution)]: an H3 index, a [str];
    - [h3.h3_to_geo_boundary(h, geo_json)]: the cell's vertices as
      (lat, lng) pairs, or, when [geo_json], as a closed loop of
      (lng, lat) pairs;
    - [h3.h3_to_geo(h)]: the cell's centre, (lat, lng). *)
Class H3 : Type := {
  h3_geo_to_h3 : pyval -> pyval -> pyval -> outcome string;
  h3_h3_to_geo_boundary : pyval -> bool -> outcome (list (pyfloat * pyfloat));
  h3_h3_to_geo : pyval -> outcome (pyfloat * pyfloat)
}.

(** [geo_to_h3] takes its coordinates as C doubles: anything that is not
    a real number is a TypeError. *)
Class H3Contract `{H3} : Prop := {
  geo_to_h3_real_args :
    forall lat lon resolution c,
      h3_geo_to_h3 lat lon resolution = Normal c ->
      is_real lat = true /\ is_real lon = true
}.

(** The validation [shapely.geometry.Polygon(shell)] performs. *)
Class Shapely : Type := {
  shapely_rejects : list (pyfloat * pyfloat) -> option exn
}.

(** Where the project lives, and what is on disk there.
    [Path.exists()] answers whether the path is there, or lets through
    the [OSError] of the underlying [stat] when it is not one of the
    "no such file" kinds (a directory that may not be searched, a name
    that is too long). *)
Class Disk : Type := {
  PROJECT_ROOT : path;
  Path_exists : path -> outcome bool;
  pd_read_csv : path -> outcome DataFrame;
  gpd_read_file : path -> outcome GeoDataFrame
}.

End Libraries.

Export Libraries.

(* ================================================================== *)
(** ** src/config.py *)

Module Config.

Section Paths.
Context `{disk : Disk}.

Definition DATA_DIR : path := PROJECT_ROOT ++ ["data"].
Definition RAW_TAXI_DATA_FILE : path := DATA_DIR ++ ["yellow_tripdata_2015-01.csv"].
Definition BOROUGHS_FILE_NAME : string := "borough.geo.json".
Definition BOROUGHS_FILE_PATH : path := DATA_DIR ++ [BOROUGHS_FILE_NAME].

End Paths.

(** [Path.name]: the final component. *)
Definition path_name (p : path) : string := last p "".

Definition H3_RESOLUTION : Z := 9.
Definition TARGET_COLUMN : string := "demand".

(** Lag features (hours): 1h to 1 week. *)
Definition LAG_FEATURES_HOURS : list nat :=
  [1; 2; 3; 6; 12; 24; 24 * 2; 24 * 7]%nat.

Definition PICKUP_DATETIME_COL : string := "tpep_pickup_datetime".
Definition DROPOFF_DATETIME_COL : string := "tpep_dropoff_datetime".
Definition PICKUP_LAT_COL : string := "pickup_latitude".
Definition PICKUP_LON_COL : string := "pickup_longitude".
Definition PICKUP_H3_COL : string := "pickup_h3_zone".
Definition PICKUP_HOUR_TS_COL : string := "pickup_hour_timestamp".

End Config.

(* ================================================================== *)
(** ** src/utils.py *)

Module Utils.

Local Open Scope py_scope.

(** A shapely [Polygon], by the shell it was built from (shapely closes
    the ring by itself; that adds no vertex). *)
Record Polygon : Type := mkPolygon { exterior : list (pyfloat * pyfloat) }.

(** A boundary as the Python object h3 returns: a tuple of 2-tuples. *)
Definition py_boundary (b : list (pyfloat * pyfloat)) : pyval :=
  VTuple (map (fun p => VTuple [VFloat (fst p); VFloat (snd p)]) b).

Section Code.
Context `{pandas : Pandas} `{h3 : H3} `{shapely : Shapely}.

Definition shapely_Polygon (shell : list (pyfloat * pyfloat)) : outcome Polygon :=
  match shapely_rejects shell with
  | Some e => Raise e
  | None => Normal (mkPolygon shell)
  end.

(** Safely convert lat/lon to H3, handling potential errors.
    [pd.isna(lat) or pd.isna(lon)] tests the truth of the first operand
    and evaluates the second only when the first is false. *)
Definition geo_to_h3_safe (lat lon resolution : pyval) : M (option string) :=
  try_except
    (na_lat <- lift (pd_isna lat) ;;
     b_lat <- lift (py_bool na_lat) ;;
     if (b_lat : bool) then ret None
     else
       na_lon <- lift (pd_isna lon) ;;
       b_lon <- lift (py_bool na_lon) ;;
       if (b_lon : bool) then ret None
       else
         c <- lift (h3_geo_to_h3 lat lon resolution) ;;
         ret (Some c))
    (fun e => ret None).

(** The GeoJSON Feature built around a boundary. *)
Definition feature (boundary : list (pyfloat * pyfloat)) (h3_index : pyval) : pyval :=
  VDict [("type", VStr "Feature");
         ("geometry", VDict [("type", VStr "Polygon");
                             ("coordinates", VList [py_boundary boundary])]);
         ("properties", VDict [("id", h3_index)])].

(** Get GeoJSON boundary for an H3 cell. *)
Definition get_h3_boundary_geojson (h3_index : pyval) : M (option pyval) :=
  try_except
    (boundary <- lift (h3_h3_to_geo_boundary h3_index true) ;;
     ret (Some (feature boundary h3_index)))
    (fun e =>
       logger_warning [FText "Error getting H3 boundary for "; FVal h3_index;
                       FText ": "; FExc e] ;;;
       ret None).

(** Get centroid (lat, lon) of an H3 cell. *)
Definition get_h3_centroid (h3_index : pyval) : M (option pyfloat * option pyfloat) :=
  try_except
    (c <- lift (h3_h3_to_geo h3_index) ;;
     let '(lat, lon) := c in
     ret (Some lat, Some lon))
    (fun e =>
       logger_warning [FText "Error getting H3 centroid for "; FVal h3_index;
                       FText ": "; FExc e] ;;;
       ret (None, None)).

(** Shapely expects (lon, lat). *)
Definition lon_lat (p : pyfloat * pyfloat) : pyfloat * pyfloat :=
  let '(lat, lon) := p in (lon, lat).

(** Convert H3 index to a Shapely Polygon. *)
Definition h3_to_polygon (h3_index : pyval) : M (option Polygon) :=
  try_except
    (boundary <- lift (h3_h3_to_geo_boundary h3_index false) ;;
     p <- lift (shapely_Polygon (map lon_lat boundary)) ;;
     ret (Some p))
    (fun e =>
       logger_warning [FText "Error converting H3 "; FVal h3_index;
                       FText " to Polygon: "; FExc e] ;;;
       ret None).

End Code.

(** The warning each wrapper logs when its lookup fails. *)
Definition boundary_warning (h3_index : pyval) (e : exn) : event :=
  Log WARNING [FText "Error getting H3 boundary for "; FVal h3_index;
               FText ": "; FExc e].

Definition centroid_warning (h3_index : pyval) (e : exn) : event :=
  Log WARNING [FText "Error getting H3 centroid for "; FVal h3_index;
               FText ": "; FExc e].

Definition polygon_warning (h3_index : pyval) (e : exn) : event :=
  Log WARNING [FText "Error converting H3 "; FVal h3_index;
               FText " to Polygon: "; FExc e].

End Utils.

(* ================================================================== *)
(** ** src/data_loader.py *)

Module DataLoader.

Import Config.
Local Open Scope py_scope.

Section Code.
Context `{disk : Disk}.

(** File operations leave a record in the trace. *)
Definition exists_ (p : path) : M bool :=
  fun t => (Path_exists p, t ++ [FileOp "exists" p]).

Definition read_csv (p : path) : M DataFrame :=
  fun t => (pd_read_csv p, t ++ [FileOp "read_csv" p]).

Definition read_file (p : path) : M GeoDataFrame :=
  fun t => (gpd_read_file p, t ++ [FileOp "read_file" p]).

Definition len (df : DataFrame) : Z := Z.of_nat (List.length df).

(** [df.head()]: the first five rows. *)
Definition head (df : DataFrame) : DataFrame := firstn 5 df.

(** The exception [load_raw_taxi_data] raises on a missing file. *)
Definition raw_file_not_found : exn :=
  Exn "FileNotFoundError"
      [FText "Raw taxi data file not found: "; FPath RAW_TAXI_DATA_FILE].

(** Loads the raw taxi trip data. *)
Definition load_raw_taxi_data : M DataFrame :=
  found <- exists_ RAW_TAXI_DATA_FILE ;;
  if negb found then
    logger_error [FText "Raw taxi data file not found: "; FPath RAW_TAXI_DATA_FILE] ;;;
    logger_error [FText "Please download it from https://www.nyc.gov/site/tlc/about/tlc-trip-record-data.page"] ;;;
    logger_error [FText "And place it as "; FText (path_name RAW_TAXI_DATA_FILE);
                  FText " in the "; FPath DATA_DIR; FText " directory."] ;;;
    raise raw_file_not_found
  else
    logger_info [FText "Loading raw taxi data from "; FPath RAW_TAXI_DATA_FILE;
                 FText "..."] ;;;
    df <- read_csv RAW_TAXI_DATA_FILE ;;
    logger_info [FText "Loaded "; FNum (len df); FText " trips."] ;;;
    ret df.

(** Loads NYC borough boundaries from GeoJSON file. *)
Definition load_borough_boundaries : M (option GeoDataFrame) :=
  found <- exists_ BOROUGHS_FILE_PATH ;;
  if negb found then
    logger_error [FText "Boroughs GeoJSON file not found: "; FPath BOROUGHS_FILE_PATH] ;;;
    logger_error [FText "Download it manually from:"] ;;;
    logger_error [FText "https://raw.githubusercontent.com/nycehs/NYC_geography/main/borough.geo.json"] ;;;
    logger_error [FText "And place it in the "; FPath DATA_DIR; FText " directory."] ;;;
    ret None
  else
    logger_info [FText "Loading borough boundaries from "; FPath BOROUGHS_FILE_PATH;
                 FText "..."] ;;;
    try_except
      (boroughs_gdf <- read_file BOROUGHS_FILE_PATH ;;
       logger_info [FText "Borough boundaries loaded successfully."] ;;;
       ret (Some boroughs_gdf))
      (fun e =>
         logger_error [FText "Error loading borough GeoJSON: "; FExc e] ;;;
         ret None).

(** The module run as a script. *)
Definition main : M unit :=
  taxi_df <- load_raw_taxi_data ;;
  print (head taxi_df) ;;;
  boroughs <- load_borough_boundaries ;;
  match boroughs with
  | Some b => print (head b)
  | None => ret tt
  end.

(** What a failed load of the trip data leaves in the trace: the
    existence test and three error records, and nothing else. *)
Definition missing_raw_events : trace :=
  [FileOp "exists" RAW_TAXI_DATA_FILE;
   Log ERROR [FText "Raw taxi data file not found: "; FPath RAW_TAXI_DATA_FILE];
   Log ERROR [FText "Please download it from https://www.nyc.gov/site/tlc/about/tlc-trip-record-data.page"];
   Log ERROR [FText "And place it as "; FText (path_name RAW_TAXI_DATA_FILE);
              FText " in the "; FPath DATA_DIR; FText " directory."]].

Definition missing_boroughs_events : trace :=
  [FileOp "exists" BOROUGHS_FILE_PATH;
   Log ERROR [FText "Boroughs GeoJSON file not found: "; FPath BOROUGHS_FILE_PATH];
   Log ERROR [FText "Download it manually from:"];
   Log ERROR [FText "https://raw.githubusercontent.com/nycehs/NYC_geography/main/borough.geo.json"];
   Log ERROR [FText "And place it in the "; FPath DATA_DIR; FText " directory."]].

Definition reading_boroughs_events : trace :=
  [FileOp "exists" BOROUGHS_FILE_PATH;
   Log INFO [FText "Loading borough boundaries from "; FPath BOROUGHS_FILE_PATH;
             FText "..."];
   FileOp "read_file" BOROUGHS_FILE_PATH].

(** An event that reads a file's content. *)
Definition is_read (ev : event) : bool :=
  match ev with
  | FileOp op _ => negb (String.eqb op "exists")
  | _ => false
  end.

End Code.

End DataLoader.

(* ================================================================== *)
(** ** The demand grid and its lag features *)

Module Pipeline.

Import Config.
Local Open Scope Z_scope.

(** Modelled from the spec: the trip record of the data model (pickup
    timestamp, dropoff timestamp, pickup latitude, pickup longitude), under
    the column names of [src/config.py].  Timestamps are in seconds. *)
Record Trip : Type := mkTrip {
  tpep_pickup_datetime : Z;
  tpep_dropoff_datetime : Z;
  pickup_latitude : pyval;
  pickup_longitude : pyval
}.

(** Modelled from the spec: the hourly demand record of the data model,
    (cell id, hour-aligned timestamp) -> trip count. *)
Record DemandRow : Type := mkRow {
  pickup_h3_zone : string;
  pickup_hour_timestamp : Z;
  demand : Z
}.

Definition DemandGrid := list DemandRow.

(** Modelled from the spec: the feature row of the data model, here the
    demand record and one lag column per horizon; a column holds [None]
    where the lag is missing. *)
Record FeatureRow : Type := mkFeatureRow {
  base : DemandRow;
  lags : list (nat * option Z)
}.

Definition SECONDS_PER_HOUR : Z := 3600.

(** Modelled from the spec: the pickup timestamp floored to the hour. *)
Definition floor_hour (t : Z) : Z := SECONDS_PER_HOUR * (t / SECONDS_PER_HOUR).

Definition key_eqb (k1 k2 : string * Z) : bool :=
  String.eqb (fst k1) (fst k2) && Z.eqb (snd k1) (snd k2).

Definition key_eq_dec (k1 k2 : string * Z) : {k1 = k2} + {k1 <> k2}.
Proof. decide equality; [apply Z.eq_dec | apply string_dec]. Defined.

Definition key_of (r : DemandRow) : string * Z :=
  (pickup_h3_zone r, pickup_hour_timestamp r).

(** The rows of one cell, in the grid's order. *)
Definition series (grid : DemandGrid) (c : string) : DemandGrid :=
  filter (fun r => String.eqb (pickup_h3_zone r) c) grid.

(** Every hour from [lo] to [hi], one hour apart. *)
Definition hours_between (lo hi : Z) : list Z :=
  map (fun k => lo + SECONDS_PER_HOUR * Z.of_nat k)
      (seq 0 (S (Z.to_nat ((hi - lo) / SECONDS_PER_HOUR)))).

(** Modelled from the spec: the full observed time span of a grid, every
    hour from its earliest to its latest; empty for an empty grid. *)
Definition observed_span (counts : DemandGrid) : list Z :=
  match map pickup_hour_timestamp counts with
  | [] => []
  | h :: hs => hours_between (fold_right Z.min h hs) (fold_right Z.max h hs)
  end.

(** The demand a grid records for (cell, hour), if it has that pair. *)
Definition demand_at (counts : DemandGrid) (c : string) (h : Z) : option Z :=
  option_map demand (find (fun r => key_eqb (key_of r) (c, h)) counts).

Section Code.
Context `{pandas : Pandas} `{h3 : H3}.

(** Modelled from the spec: [cell_of(lat, lon, resolution) -> CellId | null],
    the cell assignment of the Geospatial Indexer, here the value
    [Utils.geo_to_h3_safe] returns. *)
Definition cell_of (lat lon : pyval) (resolution : Z) : option string :=
  match fst (Utils.geo_to_h3_safe lat lon (VInt resolution) []) with
  | Normal c => c
  | Raise _ => None
  end.

(** Modelled from the spec: the first half of [aggregate], which assigns
    each trip a cell id and floors its pickup timestamp to the hour;
    null-celled rows are excluded from aggregation. *)
Definition keyed (trips : list Trip) (resolution : Z) : list (string * Z) :=
  flat_map
    (fun tr =>
       match cell_of (pickup_latitude tr) (pickup_longitude tr) resolution with
       | Some c => [(c, floor_hour (tpep_pickup_datetime tr))]
       | None => []
       end)
    trips.

End Code.

(** The number of trips that fall in (cell, hour). *)
Definition trips_in (keys : list (string * Z)) (k : string * Z) : Z :=
  Z.of_nat (List.length (filter (key_eqb k) keys)).

(** Modelled from the spec: the counting step of [aggregate], which counts
    trips per (cell, hour); one row per distinct pair. *)
Definition count_trips (keys : list (string * Z)) : DemandGrid :=
  map (fun k => mkRow (fst k) (snd k) (trips_in keys k))
      (nodup key_eq_dec keys).

(** The count of a seen (cell, hour) pair, 0 for an unseen one. *)
Definition demand_or_zero (counts : DemandGrid) (c : string) (h : Z) : Z :=
  match demand_at counts c h with
  | Some d => d
  | None => 0
  end.

(** Modelled from the spec: the densification step of [aggregate]: for
    every cell that appears at least once, one row per hour across the
    full observed time span, unseen (cell, hour) pairs filled with
    demand = 0. *)
Definition densify (counts : DemandGrid) : DemandGrid :=
  flat_map
    (fun c =>
       map (fun h => mkRow c h (demand_or_zero counts c h))
           (observed_span counts))
    (nodup string_dec (map pickup_h3_zone counts)).

Section Aggregate.
Context `{pandas : Pandas} `{h3 : H3}.

(** Modelled from the spec: [aggregate(trips, resolution) -> DemandGrid]
    of the Demand Aggregator, which the repository describes and
    configures ([H3_RESOLUTION], the column names) without shipping its
    code. *)
Definition aggregate (trips : list Trip) (resolution : Z) : DemandGrid :=
  densify (count_trips (keyed trips resolution)).

End Aggregate.

(** Modelled from the spec: the value of the lag-[H] column for row [r],
    given the rows that precede it in the grid, most recent first: the
    demand of the row [H] places earlier in the same cell's series,
    missing when the series does not reach that far back. *)
Definition shifted (before : DemandGrid) (r : DemandRow) (H : nat) : option Z :=
  match H with
  | O => Some (demand r)
  | S k => option_map demand (nth_error (series before (pickup_h3_zone r)) k)
  end.

(** The grid walked in order, each row given its lag columns. *)
Fixpoint lag_rows (horizons : list nat) (before grid : DemandGrid) : list FeatureRow :=
  match grid with
  | [] => []
  | r :: rest =>
      mkFeatureRow r (map (fun H => (H, shifted before r H)) horizons)
      :: lag_rows horizons (r :: before) rest
  end.

(** Modelled from the spec: [add_lag_features(grid, horizons_hours)] of the
    Feature Engineer: for each configured horizon H and each cell
    independently, a column equal to that cell's demand H hours earlier,
    missing (not zero) at the start of the cell's series.  The column is
    taken H rows back in the cell's series, which is why the spec requires
    it to run on the densified grid: without densification non-adjacent
    hours would be treated as adjacent. *)
Definition add_lag_features (grid : DemandGrid) (horizons_hours : list nat)
  : list FeatureRow :=
  lag_rows horizons_hours [] grid.

(** The lag-[H] column of a feature row: [None] when the row has no such
    column, [Some None] when the column holds a missing value. *)
Fixpoint lag_column (H : nat) (cols : list (nat * option Z)) : option (option Z) :=
  match cols with
  | [] => None
  | (H', v) :: rest => if Nat.eqb H' H then Some v else lag_column H rest
  end.

Definition lag (H : nat) (f : FeatureRow) : option (option Z) :=
  lag_column H (lags f).

End Pipeline.

(* ================================================================== *)
(** ** Reference libraries *)

(** Small concrete stand-ins for the third-party libraries: enough to run
    the code on concrete inputs, and to show that the library contracts
    above can be met. *)
Module Reference.

Import Utils DataLoader Pipeline.

(** [pandas.isna]: element-wise on a list or an array, a bool on anything
    else. *)
Definition ref_isna (obj : pyval) : outcome pyval :=
  match obj with
  | VList items => Normal (VArray (map (fun x => VBool (is_missing x)) items))
  | VArray elts => Normal (VArray (map (fun x => VBool (is_missing x)) elts))
  | _ => Normal (VBool (is_missing obj))
  end.

Definition ref_pandas : Pandas := {| pd_isna := ref_isna |}.

(** A toy grid in place of H3: one cell per square degree, whatever the
    resolution (0..15); latitudes beyond +-90 and longitudes beyond +-180
    are refused, as are non-finite coordinates. *)
Definition toy_floor (m e : Z) : Z := Z.shiftl m e.

Definition toy_within (m e bound : Z) : bool :=
  if (0 <=? e)%Z then (Z.abs m * 2 ^ e <=? bound)%Z
  else (Z.abs m <=? bound * 2 ^ (- e))%Z.

Definition toy_geo_to_h3 (lat lon resolution : pyval) : outcome string :=
  match lat, lon, resolution with
  | VFloat (FFinite m1 e1), VFloat (FFinite m2 e2), VInt r =>
      if negb ((0 <=? r)%Z && (r <=? 15)%Z) then
        Raise (Exn "H3ResolutionError" [FNum r])
      else if toy_within m1 e1 90 && toy_within m2 e2 180 then
        Normal (String.append (HexString.of_Z (toy_floor m1 e1))
                  (String.append "/" (HexString.of_Z (toy_floor m2 e2))))
      else Raise (Exn "H3CellError" [FVal lat; FVal lon])
  | VFloat _, VFloat _, VInt r => Raise (Exn "H3CellError" [FVal lat; FVal lon])
  | _, _, _ => Raise (Exn "TypeError" [FText "must be real number"])
  end.

(** The toy cell's boundary, anchored at the origin: six vertices, given
    as (lat, lng), or as a closed loop of (lng, lat) for GeoJSON. *)
Definition toy_hexagon : list (pyfloat * pyfloat) :=
  [(FFinite 0 0, FFinite 1 0); (FFinite 1 0, FFinite 2 0); (FFinite 2 0, FFinite 2 0);
   (FFinite 3 0, FFinite 1 0); (FFinite 2 0, FFinite 0 0); (FFinite 1 0, FFinite 0 0)].

Definition toy_boundary (h : pyval) (geo_json : bool) : outcome (list (pyfloat * pyfloat)) :=
  match h with
  | VStr s =>
      if String.eqb s "" then Raise (Exn "H3CellError" [FVal h])
      else if geo_json
           then Normal (map lon_lat toy_hexagon ++ [(FFinite 1 0, FFinite 0 0)])
           else Normal toy_hexagon
  | _ => Raise (Exn "TypeError" [FText "expected str"])
  end.

Definition toy_centre (h : pyval) : outcome (pyfloat * pyfloat) :=
  match h with
  | VStr s =>
      if String.eqb s "" then Raise (Exn "H3CellError" [FVal h])
      else Normal (FFinite 3 (-1), FFinite 1 0)
  | _ => Raise (Exn "TypeError" [FText "expected str"])
  end.

Definition toy_h3 : H3 :=
  {| h3_geo_to_h3 := toy_geo_to_h3;
     h3_h3_to_geo_boundary := toy_boundary;
     h3_h3_to_geo := toy_centre |}.

(** A linear ring needs at least three distinct positions. *)
Definition ref_shapely : Shapely :=
  {| shapely_rejects shell :=
       if (List.length shell <? 3)%nat
       then Some (Exn "ValueError" [FText "A linearring requires at least 4 coordinates."])
       else None |}.

(** A disk holding (or not) the two input files, each with the result of
    reading it. *)
Definition ref_root : path := ["home"; "user"; "taxi-demand"].

Fixpoint path_eqb (p q : path) : bool :=
  match p, q with
  | [], [] => true
  | a :: p', b :: q' => String.eqb a b && path_eqb p' q'
  | _, _ => false
  end.

Definition ref_disk (raw : option (outcome DataFrame))
                    (boroughs : option (outcome GeoDataFrame)) : Disk :=
  {| PROJECT_ROOT := ref_root;
     Path_exists p :=
       if path_eqb p (ref_root ++ ["data"; "yellow_tripdata_2015-01.csv"])
       then Normal match raw with Some _ => true | None => false end
       else if path_eqb p (ref_root ++ ["data"; "borough.geo.json"])
       then Normal match boroughs with Some _ => true | None => false end
       else Normal false;
     pd_read_csv p :=
       match raw with
       | Some r => r
       | None => Raise (Exn "FileNotFoundError" [FPath p])
       end;
     gpd_read_file p :=
       match boroughs with
       | Some r => r
       | None => Raise (Exn "DriverError" [FPath p])
       end |}.

(** 40.75 N, 73.99 W (as [-9471/128]), and the same with a latitude far
    outside the globe. *)
Definition lat_ok : pyval := VFloat (FFinite 163 (-2)).
Definition lon_ok : pyval := VFloat (FFinite (-9471) (-7)).
Definition lat_999 : pyval := VFloat (FFinite 999 0).

(** Three trips in one cell at 00:00, 02:00 and 02:30 of a day, and one
    with latitude 999. *)
Definition day : Z := 1420070400.
Definition three_trips : list Trip :=
  [mkTrip day (day + 600) lat_ok lon_ok;
   mkTrip (day + 7200) (day + 7900) lat_ok lon_ok;
   mkTrip (day + 9000) (day + 9500) lat_ok lon_ok].
Definition bad_trip : Trip := mkTrip (day + 3600) (day + 4000) lat_999 lon_ok.

(** A disk without the input files. *)
Definition empty_disk : Disk := ref_disk None None.

(** The toy cell of [lat_ok], [lon_ok]. *)
Definition the_cell : string := "0x28/-0x4a".

(** The feature row of hour 01:00 in the three-trip table. *)
Definition row_0100 : FeatureRow :=
  mkFeatureRow (mkRow the_cell (day + 3600)%Z 0%Z)
    [(1%nat, Some 1%Z); (2%nat, None); (3%nat, None); (6%nat, None);
     (12%nat, None); (24%nat, None); (48%nat, None); (168%nat, None)].

End Reference.

(* ================================================================== *)
(** ** Properties of src/utils.py *)

Module UtilsProps.

Import Utils.
Local Open Scope py_scope.

(** Unfolds the monad and splits on every library result in sight. *)
Ltac run :=
  unfold try_except, bind, lift, ret, raise, emit, logger_warning,
         logger_error, logger_info in *;
  simpl in *.

Ltac split_outcomes :=
  repeat match goal with
         | |- context [match ?x with Normal _ => _ | Raise _ => _ end] =>
             destruct x eqn:?; simpl in *
         | |- context [if ?b then _ else _] => destruct b eqn:?; simpl in *
         end.

(** Two results of the same call are the same result. *)
Ltac same_result :=
  repeat match goal with
         | H : Normal _ = Normal _ |- _ => injection H as H; subst
         | H : Raise _ = Raise _ |- _ => injection H as H; subst
         | H : Normal _ = Raise _ |- _ => discriminate H
         | H : Raise _ = Normal _ |- _ => discriminate H
         end.

Section Wrappers.
Context `{pandas : Pandas} `{h3 : H3} `{shapely : Shapely}.

(** The null test of a real, non-missing coordinate is false, under the
    pandas contract. *)
Lemma isna_real `{pandas_ok : !PandasContract} (v : pyval) :
  is_real v = true -> is_missing v = false ->
  pd_isna v = Normal (VBool false).
Proof.
  destruct v; simpl; try discriminate; intros _ Hm.
  - apply isna_bool.
  - apply isna_int.
  - rewrite isna_float, Hm. reflexivity.
Qed.

Lemma isna_missing `{pandas_ok : !PandasContract} (v : pyval) :
  is_missing v = true -> pd_isna v = Normal (VBool true).
Proof.
  destruct v; simpl; try discriminate; intros Hm.
  - apply isna_None.
  - rewrite isna_float, Hm. reflexivity.
Qed.

(** [geo_to_h3_safe] returns, whatever the libraries do, and leaves the
    trace alone. *)
Lemma geo_to_h3_safe_returns (lat lon resolution : pyval) (t : trace) :
  exists r, geo_to_h3_safe lat lon resolution t = (Normal r, t).
Proof.
  unfold geo_to_h3_safe. run. split_outcomes; eauto.
Qed.

(** Its value does not depend on the trace it is called in. *)
Lemma geo_to_h3_safe_trace (lat lon resolution : pyval) (t1 t2 : trace) :
  fst (geo_to_h3_safe lat lon resolution t1)
  = fst (geo_to_h3_safe lat lon resolution t2).
Proof.
  unfold geo_to_h3_safe. run. split_outcomes; reflexivity.
Qed.

(** C1. For every input (lat, lon, resolution), [geo_to_h3_safe] never
    raises: it returns a value and logs nothing.  The value is null when
    lat or lon is null/NaN, null when the H3 conversion raises, and
    otherwise the cell id h3 computes for the coordinates at the given
    resolution. *)
Theorem geo_to_h3_safe_never_raises
    `{pandas_ok : !PandasContract} `{h3_ok : !H3Contract}
    (lat lon resolution : pyval) (t : trace) :
  exists r,
    geo_to_h3_safe lat lon resolution t = (Normal r, t) /\
    (is_missing lat = true \/ is_missing lon = true -> r = None) /\
    (forall e, h3_geo_to_h3 lat lon resolution = Raise e -> r = None) /\
    (forall c, is_missing lat = false -> is_missing lon = false ->
               h3_geo_to_h3 lat lon resolution = Normal c -> r = Some c).
Proof.
  destruct (geo_to_h3_safe_returns lat lon resolution t) as [r Hr].
  exists r. split; [exact Hr|].
  unfold geo_to_h3_safe in Hr. run.
  split; [|split].
  - intros [Hm | Hm].
    + rewrite (isna_missing lat Hm) in Hr. simpl in Hr. congruence.
    + rewrite (isna_missing lon Hm) in Hr. simpl in Hr.
      destruct (pd_isna lat) as [v|]; simpl in Hr; [|congruence].
      destruct (py_bool v) as [[|]|]; simpl in Hr; congruence.
  - intros e He. rewrite He in Hr.
    destruct (pd_isna lat) as [v|]; simpl in Hr; [|congruence].
    destruct (py_bool v) as [[|]|]; simpl in Hr; try congruence.
    destruct (pd_isna lon) as [w|]; simpl in Hr; [|congruence].
    destruct (py_bool w) as [[|]|]; simpl in Hr; congruence.
  - intros c Hlat Hlon Hc.
    destruct (geo_to_h3_real_args _ _ _ _ Hc) as [Rlat Rlon].
    rewrite (isna_real lat Rlat Hlat), (isna_real lon Rlon Hlon), Hc in Hr.
    simpl in Hr. congruence.
Qed.



(** C9. Whenever [get_h3_boundary_geojson] returns a Feature, its
    properties.id is the input [h3_index], its geometry has type
    "Polygon", and the geometry's coordinates hold exactly one ring, the
    boundary h3 returned for the cell. *)
Theorem geojson_feature_shape
    (h3_index : pyval) (t t' : trace) (feat : pyval) :
  get_h3_boundary_geojson h3_index t = (Normal (Some feat), t') ->
  exists properties geometry ring,
    dict_get feat "type" = Some (VStr "Feature") /\
    dict_get feat "properties" = Some properties /\
    dict_get properties "id" = Some h3_index /\
    dict_get feat "geometry" = Some geometry /\
    dict_get geometry "type" = Some (VStr "Polygon") /\
    dict_get geometry "coordinates" = Some (VList [ring]) /\
    exists b, h3_h3_to_geo_boundary h3_index true = Normal b /\
              ring = py_boundary b.
Proof.
  unfold get_h3_boundary_geojson. run.
  destruct (h3_h3_to_geo_boundary h3_index true) as [b|e]; simpl;
    intros Hx; inversion Hx; subst.
  unfold feature. simpl.
  do 3 eexists. repeat (split; [reflexivity|]).
  exists b. split; reflexivity.
Qed.

(** C10. Whenever [h3_to_polygon] returns a polygon, its vertices are
    the H3 cell boundary vertices, in the same order and as many, each
    (lat, lon) pair swapped to (lon, lat). *)
Theorem h3_to_polygon_vertices
    (h3_index : pyval) (t t' : trace) (p : Polygon) :
  h3_to_polygon h3_index t = (Normal (Some p), t') ->
  exists b,
    h3_h3_to_geo_boundary h3_index false = Normal b /\
    exterior p = map lon_lat b /\
    List.length (exterior p) = List.length b /\
    (forall i lat lon, nth_error b i = Some (lat, lon) <->
                       nth_error (exterior p) i = Some (lon, lat)).
Proof.
  unfold h3_to_polygon, shapely_Polygon. run.
  destruct (h3_h3_to_geo_boundary h3_index false) as [b|e]; simpl;
    [|intros Hx; inversion Hx].
  destruct (shapely_rejects (map lon_lat b)) as [e|]; simpl;
    intros Hx; inversion Hx; subst.
  exists b. simpl. split; [reflexivity|]. split; [reflexivity|].
  split; [apply length_map|].
  intros i lat lon. rewrite nth_error_map.
  destruct (nth_error b i) as [[la lo]|]; simpl; split; intros E;
    inversion E; subst; reflexivity.
Qed.

End Wrappers.

End UtilsProps.

(* ================================================================== *)
(** ** Properties of src/data_loader.py *)

Module DataLoaderProps.

Import Config DataLoader.
Import UtilsProps.
Local Open Scope py_scope.

Section Loaders.
Context `{disk : Disk}.

(** C4. Loading trip records fails with FileNotFoundError when the raw
    trip-data file does not exist: [load_raw_taxi_data] raises instead of
    returning, after the existence test and three error records and
    without reading any file (no retry, no fallback), and the exception
    ends the run of the script ([main]) there. *)
Theorem load_raw_taxi_data_missing_file (t : trace) :
  Path_exists RAW_TAXI_DATA_FILE = Normal false ->
  load_raw_taxi_data t = (Raise raw_file_not_found, t ++ missing_raw_events) /\
  exn_class raw_file_not_found = "FileNotFoundError" /\
  existsb is_read missing_raw_events = false /\
  main t = (Raise raw_file_not_found, t ++ missing_raw_events).
Proof.
  intros Hmissing.
  assert (load_raw_taxi_data t
          = (Raise raw_file_not_found, t ++ missing_raw_events)) as Hload.
  { unfold load_raw_taxi_data, exists_, missing_raw_events. run.
    rewrite Hmissing. simpl.
    repeat rewrite <- app_assoc. reflexivity. }
  repeat split; trivial.
  unfold main, bind. rewrite Hload. reflexivity.
Qed.

(** C5. Loading boundary polygons propagates no error but one of the
    existence test itself, which stands before the [try]:
    when [Path.exists()] raises, [load_borough_boundaries] raises that
    error.  Once the test has answered, the function always returns:
    when the boundary file is missing it logs and returns null without
    reading; when reading it raises, for whatever reason, it logs the
    error and returns null; otherwise it returns what was read. *)
Theorem load_borough_boundaries_outcome (t : trace) :
  (forall e,
     Path_exists BOROUGHS_FILE_PATH = Raise e ->
     load_borough_boundaries t = (Raise e, t ++ [FileOp "exists" BOROUGHS_FILE_PATH])) /\
  (forall found,
     Path_exists BOROUGHS_FILE_PATH = Normal found ->
     exists r t',
       load_borough_boundaries t = (Normal r, t') /\
       (found = false ->
          r = None /\ t' = t ++ missing_boroughs_events) /\
       (found = true ->
          forall e, gpd_read_file BOROUGHS_FILE_PATH = Raise e ->
          r = None /\
          t' = t ++ reading_boroughs_events
                 ++ [Log ERROR [FText "Error loading borough GeoJSON: "; FExc e]]) /\
       (found = true ->
          forall gdf, gpd_read_file BOROUGHS_FILE_PATH = Normal gdf ->
          r = Some gdf /\
          t' = t ++ reading_boroughs_events
                 ++ [Log INFO [FText "Borough boundaries loaded successfully."]])).
Proof.
  unfold load_borough_boundaries, exists_, read_file,
         missing_boroughs_events, reading_boroughs_events. run.
  split.
  - intros e He. rewrite He. reflexivity.
  - intros found Hfound. rewrite Hfound. simpl.
    destruct found; simpl.
    + destruct (gpd_read_file BOROUGHS_FILE_PATH) as [gdf|e]; simpl;
        eexists; eexists; (split; [reflexivity|]);
        repeat split; intros; same_result; try discriminate;
        repeat rewrite <- app_assoc; reflexivity.
    + eexists; eexists; (split; [reflexivity|]);
        repeat split; intros; same_result; try discriminate;
        repeat rewrite <- app_assoc; reflexivity.
Qed.

End Loaders.

End DataLoaderProps.

(* ================================================================== *)
(** ** Properties of the demand grid and of its lag features *)

Module PipelineProps.

Import Config Pipeline.
Local Open Scope Z_scope.

(** *** Lists *)

Lemma fold_min_spec (h : Z) (hs : list Z) :
  In (fold_right Z.min h hs) (h :: hs) /\
  forall x, In x (h :: hs) -> fold_right Z.min h hs <= x.
Proof.
  induction hs as [|a hs [IHin IHle]]; simpl.
  - split; [auto|]. intros x [<-|[]]. lia.
  - split.
    + destruct (Z.min_spec a (fold_right Z.min h hs)) as [[_ ->]|[_ ->]].
      * right; left; reflexivity.
      * destruct IHin as [E|E]; [left; exact E | right; right; exact E].
    + intros x [<-|[<-|Hx]].
      * specialize (IHle h (or_introl eq_refl)). lia.
      * lia.
      * specialize (IHle x (or_intror Hx)). lia.
Qed.

Lemma fold_max_spec (h : Z) (hs : list Z) :
  In (fold_right Z.max h hs) (h :: hs) /\
  forall x, In x (h :: hs) -> x <= fold_right Z.max h hs.
Proof.
  induction hs as [|a hs [IHin IHle]]; simpl.
  - split; [auto|]. intros x [<-|[]]. lia.
  - split.
    + destruct (Z.max_spec a (fold_right Z.max h hs)) as [[_ ->]|[_ ->]].
      * destruct IHin as [E|E]; [left; exact E | right; right; exact E].
      * right; left; reflexivity.
    + intros x [<-|[<-|Hx]].
      * specialize (IHle h (or_introl eq_refl)). lia.
      * lia.
      * specialize (IHle x (or_intror Hx)). lia.
Qed.

Lemma filter_all {A} (f : A -> bool) (l : list A) :
  (forall x, In x l -> f x = true) -> filter f l = l.
Proof.
  induction l as [|a l IH]; simpl; intros Hall; [reflexivity|].
  rewrite (Hall a (or_introl eq_refl)). f_equal. apply IH. auto.
Qed.

Lemma filter_none {A} (f : A -> bool) (l : list A) :
  (forall x, In x l -> f x = false) -> filter f l = [].
Proof.
  induction l as [|a l IH]; simpl; intros Hall; [reflexivity|].
  rewrite (Hall a (or_introl eq_refl)). apply IH. auto.
Qed.

(** A split of [seq] is a split at a position. *)
Lemma seq_split (s m : nat) (a b : list nat) (x : nat) :
  seq s m = a ++ x :: b ->
  a = seq s (List.length a) /\ x = (s + List.length a)%nat /\
  (List.length a < m)%nat.
Proof.
  revert s m. induction a as [|y a IH]; intros s m E.
  - destruct m; simpl in E; [discriminate|]. injection E as <- _.
    simpl. repeat split; lia.
  - destruct m; simpl in E; [discriminate|]. injection E as <- E.
    destruct (IH _ _ E) as (Ha & Hx & Hlt).
    simpl. repeat split; [f_equal; exact Ha | lia | lia].
Qed.

(** Counting back from the end of an enumerated list. *)
Lemma nth_error_rev_seq {A} (F : nat -> A) (k j : nat) :
  nth_error (rev (map F (seq 0 k))) j
  = if (j <? k)%nat then Some (F (k - S j)%nat) else None.
Proof.
  revert j. induction k as [|k IH]; intros j.
  - simpl. destruct j; reflexivity.
  - rewrite seq_S, map_app, rev_app_distr. simpl.
    destruct j as [|j]; simpl.
    + f_equal. f_equal. lia.
    + rewrite IH. change (S j <? S k)%nat with (j <? k)%nat. reflexivity.
Qed.

(** *** Keys and hours *)

Lemma key_eqb_eq (k1 k2 : string * Z) : key_eqb k1 k2 = true <-> k1 = k2.
Proof.
  destruct k1 as [c1 h1], k2 as [c2 h2]. unfold key_eqb. simpl.
  rewrite andb_true_iff, String.eqb_eq, Z.eqb_eq.
  split; [intros [-> ->]; reflexivity | intros E; injection E; auto].
Qed.

Lemma hours_between_In (lo hi h : Z) :
  In h (hours_between lo hi) <->
  exists k : nat,
    (k <= Z.to_nat ((hi - lo) / SECONDS_PER_HOUR))%nat /\
    h = lo + SECONDS_PER_HOUR * Z.of_nat k.
Proof.
  unfold hours_between. rewrite in_map_iff. split.
  - intros [k [<- Hk]]. apply in_seq in Hk. exists k. split; [lia|reflexivity].
  - intros [k [Hk ->]]. exists k. split; [reflexivity|apply in_seq; lia].
Qed.

(** Between two aligned hours, [hours_between] is every aligned hour. *)
Lemma hours_between_aligned (lo hi h : Z) :
  lo <= hi ->
  lo mod SECONDS_PER_HOUR = 0 -> hi mod SECONDS_PER_HOUR = 0 ->
  (In h (hours_between lo hi) <->
   lo <= h <= hi /\ h mod SECONDS_PER_HOUR = 0).
Proof.
  unfold SECONDS_PER_HOUR. intros Hle Hlo Hhi.
  rewrite hours_between_In. unfold SECONDS_PER_HOUR.
  apply Z.mod_divide in Hlo; [|lia]. apply Z.mod_divide in Hhi; [|lia].
  destruct Hlo as [a ->], Hhi as [b ->].
  replace ((b * 3600 - a * 3600) / 3600) with (b - a)
    by (replace (b * 3600 - a * 3600) with ((b - a) * 3600) by lia;
        rewrite Z.div_mul; lia).
  split.
  - intros [k [Hk ->]]. split; [lia|].
    replace (a * 3600 + 3600 * Z.of_nat k) with ((a + Z.of_nat k) * 3600) by lia.
    apply Z_mod_mult.
  - intros [Hr Hm]. apply Z.mod_divide in Hm; [|lia]. destruct Hm as [q ->].
    exists (Z.to_nat (q - a)). split; lia.
Qed.

(** *** Counting *)

Lemma count_trips_In (keys : list (string * Z)) (r : DemandRow) :
  In r (count_trips keys) <->
  In (key_of r) keys /\ demand r = trips_in keys (key_of r).
Proof.
  unfold count_trips. rewrite in_map_iff. split.
  - intros [[c h] [<- Hk]]. apply nodup_In in Hk. simpl. auto.
  - intros [Hk Hd]. exists (key_of r). split.
    + destruct r as [c h d]. unfold key_of in *. simpl in *. now subst.
    + apply nodup_In. exact Hk.
Qed.

Lemma demand_at_seen (keys : list (string * Z)) (c : string) (h : Z) :
  In (c, h) keys ->
  demand_at (count_trips keys) c h = Some (trips_in keys (c, h)).
Proof.
  intros Hk. unfold demand_at.
  destruct (find _ (count_trips keys)) as [r|] eqn:Hf; simpl.
  - apply find_some in Hf. destruct Hf as [Hr He].
    apply key_eqb_eq in He. apply count_trips_In in Hr.
    destruct Hr as [_ ->]. now rewrite He.
  - exfalso.
    pose proof (find_none _ _ Hf (mkRow c h (trips_in keys (c, h)))) as Hn.
    assert (key_eqb (c, h) (c, h) = true) as E by now apply key_eqb_eq.
    simpl in Hn. unfold key_of in Hn. simpl in Hn.
    rewrite E in Hn. discriminate Hn.
    apply count_trips_In. simpl. auto.
Qed.

Lemma demand_at_unseen (keys : list (string * Z)) (c : string) (h : Z) :
  ~ In (c, h) keys -> demand_at (count_trips keys) c h = None.
Proof.
  intros Hk. unfold demand_at.
  destruct (find _ (count_trips keys)) as [r|] eqn:Hf; simpl; [|reflexivity].
  exfalso. apply find_some in Hf. destruct Hf as [Hr He].
  apply key_eqb_eq in He. apply count_trips_In in Hr.
  apply Hk. rewrite <- He. tauto.
Qed.

(** A seen pair has at least one trip. *)
Lemma trips_in_positive (keys : list (string * Z)) (k : string * Z) :
  In k keys -> 1 <= trips_in keys k.
Proof.
  intros Hk. unfold trips_in.
  assert (In k (filter (key_eqb k) keys)) as Hin.
  { apply filter_In. split; [exact Hk | now apply key_eqb_eq]. }
  destruct (filter (key_eqb k) keys); [destruct Hin | simpl; lia].
Qed.

(** *** The observed span *)

Lemma observed_span_spec (counts : DemandGrid) (r0 : DemandRow) :
  In r0 counts ->
  exists lo hi,
    observed_span counts = hours_between lo hi /\
    In lo (map pickup_hour_timestamp counts) /\
    In hi (map pickup_hour_timestamp counts) /\
    forall r, In r counts -> lo <= pickup_hour_timestamp r <= hi.
Proof.
  intros Hr0. unfold observed_span.
  destruct (map pickup_hour_timestamp counts) as [|h hs] eqn:E.
  - destruct counts; [destruct Hr0 | discriminate E].
  - destruct (fold_min_spec h hs) as [Hmin_in Hmin].
    destruct (fold_max_spec h hs) as [Hmax_in Hmax].
    exists (fold_right Z.min h hs), (fold_right Z.max h hs).
    repeat split; trivial.
    + apply Hmin. rewrite <- E. now apply in_map.
    + apply Hmax. rewrite <- E. now apply in_map.
Qed.

(** *** Densification *)

Lemma densify_In (counts : DemandGrid) (r : DemandRow) :
  In r (densify counts) <->
  In (pickup_h3_zone r) (map pickup_h3_zone counts) /\
  In (pickup_hour_timestamp r) (observed_span counts) /\
  demand r = demand_or_zero counts (pickup_h3_zone r) (pickup_hour_timestamp r).
Proof.
  unfold densify. rewrite in_flat_map. split.
  - intros [c [Hc Hr]]. apply nodup_In in Hc.
    apply in_map_iff in Hr. destruct Hr as [h [<- Hh]]. simpl. auto.
  - intros (Hc & Hh & Hd). exists (pickup_h3_zone r). split.
    + now apply nodup_In.
    + apply in_map_iff. exists (pickup_hour_timestamp r). split; [|exact Hh].
      destruct r as [c h d]. simpl in *. now subst.
Qed.

(** Grouping by cell gives each cell its block of rows back. *)
Lemma series_flat_map (f : string -> DemandGrid) (cells : list string) (c : string) :
  NoDup cells ->
  (forall c' r, In r (f c') -> pickup_h3_zone r = c') ->
  In c cells ->
  series (flat_map f cells) c = f c.
Proof.
  intros Hnd Hf. unfold series.
  induction cells as [|a cells IH]; intros Hc; [destruct Hc|].
  inversion Hnd as [|? ? Hna Hnd']; subst.
  simpl. rewrite filter_app.
  destruct (string_dec a c) as [->|Hne].
  - rewrite filter_all.
    2:{ intros r Hr. rewrite (Hf _ _ Hr). apply String.eqb_refl. }
    rewrite filter_none; [apply app_nil_r|].
    intros r Hr. apply in_flat_map in Hr. destruct Hr as [c' [Hc' Hr]].
    rewrite (Hf _ _ Hr). apply String.eqb_neq. intros ->. contradiction.
  - rewrite filter_none.
    2:{ intros r Hr. rewrite (Hf _ _ Hr). now apply String.eqb_neq. }
    simpl. apply IH; trivial. destruct Hc; [contradiction|assumption].
Qed.

Lemma series_densify (counts : DemandGrid) (c : string) :
  In c (map pickup_h3_zone counts) ->
  series (densify counts) c
  = map (fun h => mkRow c h (demand_or_zero counts c h)) (observed_span counts).
Proof.
  intros Hc. unfold densify.
  apply (series_flat_map
           (fun c => map (fun h => mkRow c h (demand_or_zero counts c h))
                         (observed_span counts))).
  - apply NoDup_nodup.
  - intros c' r Hr. apply in_map_iff in Hr. destruct Hr as [h [<- _]].
    reflexivity.
  - now apply nodup_In.
Qed.

Lemma NoDup_map_inj {A B} (f : A -> B) (l : list A) :
  (forall x y, In x l -> In y l -> f x = f y -> x = y) ->
  NoDup l -> NoDup (map f l).
Proof.
  intros Hinj Hnd. induction Hnd as [|a l Hna Hnd IH]; simpl; constructor.
  - intros Hin. apply in_map_iff in Hin. destruct Hin as [y [E Hy]].
    apply Hna. rewrite (Hinj a y); simpl; auto.
  - apply IH. intros x y Hx Hy. apply Hinj; simpl; auto.
Qed.

Lemma hours_between_NoDup (lo hi : Z) : NoDup (hours_between lo hi).
Proof.
  unfold hours_between. apply NoDup_map_inj; [|apply seq_NoDup].
  unfold SECONDS_PER_HOUR. intros x y _ _ E. lia.
Qed.

Lemma observed_span_NoDup (counts : DemandGrid) : NoDup (observed_span counts).
Proof.
  unfold observed_span.
  destruct (map pickup_hour_timestamp counts);
    [constructor | apply hours_between_NoDup].
Qed.

Lemma densify_keys_unique (counts : DemandGrid) :
  NoDup (map key_of (densify counts)).
Proof.
  unfold densify.
  pose proof (NoDup_nodup string_dec (map pickup_h3_zone counts)) as Hnd.
  induction Hnd as [|c cells Hnc Hnd IH]; simpl; [constructor|].
  rewrite map_app. apply NoDup_app.
  - rewrite map_map. apply NoDup_map_inj; [|apply observed_span_NoDup].
    intros x y _ _ E. now injection E.
  - exact IH.
  - intros k Hk Hk'. rewrite map_map in Hk.
    apply in_map_iff in Hk. destruct Hk as [h [<- _]].
    apply in_map_iff in Hk'. destruct Hk' as [r [Er Hr]].
    apply in_flat_map in Hr. destruct Hr as [c' [Hc' Hr]].
    apply in_map_iff in Hr. destruct Hr as [h' [<- _]].
    unfold key_of in Er. simpl in Er. injection Er as -> _. contradiction.
Qed.

Lemma trips_in_unseen (keys : list (string * Z)) (k : string * Z) :
  ~ In k keys -> trips_in keys k = 0.
Proof.
  intros Hk. unfold trips_in. rewrite filter_none; [reflexivity|].
  intros k' Hk'. destruct (key_eqb k k') eqn:E; [|reflexivity].
  apply key_eqb_eq in E. subst. contradiction.
Qed.

(** On the counted grid, the filled-in demand is the number of trips. *)
Lemma demand_or_zero_count (keys : list (string * Z)) (c : string) (h : Z) :
  demand_or_zero (count_trips keys) c h = trips_in keys (c, h).
Proof.
  unfold demand_or_zero.
  destruct (in_dec key_eq_dec (c, h) keys) as [Hin|Hout].
  - now rewrite demand_at_seen.
  - now rewrite demand_at_unseen, trips_in_unseen.
Qed.

Lemma count_trips_cells (keys : list (string * Z)) (c : string) :
  In c (map pickup_h3_zone (count_trips keys)) <-> exists h, In (c, h) keys.
Proof.
  rewrite in_map_iff. split.
  - intros [r [<- Hr]]. apply count_trips_In in Hr.
    exists (pickup_hour_timestamp r). tauto.
  - intros [h Hk]. exists (mkRow c h (trips_in keys (c, h))). split; [reflexivity|].
    apply count_trips_In. simpl. auto.
Qed.

Lemma count_trips_hours (keys : list (string * Z)) (h : Z) :
  In h (map pickup_hour_timestamp (count_trips keys)) <-> exists c, In (c, h) keys.
Proof.
  rewrite in_map_iff. split.
  - intros [r [<- Hr]]. apply count_trips_In in Hr.
    exists (pickup_h3_zone r). tauto.
  - intros [c Hk]. exists (mkRow c h (trips_in keys (c, h))). split; [reflexivity|].
    apply count_trips_In. simpl. auto.
Qed.

Lemma floor_hour_aligned (t : Z) : floor_hour t mod SECONDS_PER_HOUR = 0.
Proof.
  unfold floor_hour. rewrite Z.mul_comm. apply Z_mod_mult.
Qed.

Section Grid.
Context `{pandas : Pandas} `{h3 : H3}.

Lemma keyed_In (trips : list Trip) (resolution : Z) (c : string) (h : Z) :
  In (c, h) (keyed trips resolution) <->
  exists tr, In tr trips /\
             cell_of (pickup_latitude tr) (pickup_longitude tr) resolution = Some c /\
             floor_hour (tpep_pickup_datetime tr) = h.
Proof.
  unfold keyed. rewrite in_flat_map. split.
  - intros [tr [Htr Hk]]. exists tr. split; [exact Htr|].
    destruct (cell_of _ _ _) as [c'|]; [|destruct Hk].
    destruct Hk as [E|[]]. injection E as -> ->. auto.
  - intros [tr (Htr & Hc & Hh)]. exists tr. split; [exact Htr|].
    rewrite Hc, Hh. left. reflexivity.
Qed.

Lemma keyed_aligned (trips : list Trip) (resolution : Z) (c : string) (h : Z) :
  In (c, h) (keyed trips resolution) -> h mod SECONDS_PER_HOUR = 0.
Proof.
  intros Hk. apply keyed_In in Hk. destruct Hk as [tr (_ & _ & <-)].
  apply floor_hour_aligned.
Qed.

(** The grid [aggregate] returns: the cells with a trip, the aligned
    hours of the observed span, the number of trips as demand. *)
Lemma aggregate_shape (trips : list Trip) (resolution : Z) :
  keyed trips resolution = [] /\ aggregate trips resolution = [] \/
  exists lo hi,
    lo <= hi /\ lo mod SECONDS_PER_HOUR = 0 /\ hi mod SECONDS_PER_HOUR = 0 /\
    (exists c, In (c, lo) (keyed trips resolution)) /\
    (exists c, In (c, hi) (keyed trips resolution)) /\
    (forall c h, In (c, h) (keyed trips resolution) -> lo <= h <= hi) /\
    observed_span (count_trips (keyed trips resolution)) = hours_between lo hi /\
    forall c, (exists h, In (c, h) (keyed trips resolution)) ->
      series (aggregate trips resolution) c
      = map (fun h => mkRow c h (trips_in (keyed trips resolution) (c, h)))
            (hours_between lo hi).
Proof.
  unfold aggregate.
  destruct (keyed trips resolution) as [|[c0 h0] keys] eqn:Ek.
  - left. split; reflexivity.
  - right. rewrite <- Ek.
    assert (In (c0, h0) (keyed trips resolution)) as Hk0
      by (rewrite Ek; left; reflexivity).
    destruct (observed_span_spec (count_trips (keyed trips resolution))
                (mkRow c0 h0 (trips_in (keyed trips resolution) (c0, h0))))
      as (lo & hi & Hspan & Hlo & Hhi & Hall).
    { apply count_trips_In. simpl. auto. }
    apply count_trips_hours in Hlo. apply count_trips_hours in Hhi.
    assert (forall c h, In (c, h) (keyed trips resolution) -> lo <= h <= hi)
      as Hbounds.
    { intros c h Hk.
      apply (Hall (mkRow c h (trips_in (keyed trips resolution) (c, h)))).
      apply count_trips_In. simpl. auto. }
    exists lo, hi.
    destruct Hlo as [cl Hlo], Hhi as [ch Hhi].
    split; [destruct (Hbounds _ _ Hlo); lia|].
    split; [now apply keyed_aligned in Hlo|].
    split; [now apply keyed_aligned in Hhi|].
    split; [eauto|]. split; [eauto|]. split; [exact Hbounds|].
    split; [exact Hspan|].
    intros c Hc. rewrite series_densify by now apply count_trips_cells.
    rewrite Hspan. apply map_ext. intros h.
    now rewrite demand_or_zero_count.
Qed.

Lemma aggregate_cells (trips : list Trip) (resolution : Z) (c : string) :
  In c (map pickup_h3_zone (aggregate trips resolution)) ->
  exists h, In (c, h) (keyed trips resolution).
Proof.
  rewrite in_map_iff. intros [r [<- Hr]]. unfold aggregate in Hr.
  apply densify_In in Hr. destruct Hr as [Hc _].
  now apply count_trips_cells.
Qed.

Lemma series_In (grid : DemandGrid) (c : string) (r : DemandRow) :
  In r (series grid c) <-> In r grid /\ pickup_h3_zone r = c.
Proof.
  unfold series. rewrite filter_In, String.eqb_eq. reflexivity.
Qed.

(** C2. After aggregation, for every cell that appears at least once in
    the output grid, the hours of the cell's rows are a contiguous hourly
    sequence from its minimum hour [lo] to its maximum hour [hi] (both
    of which have a row): every aligned hour in between has a row, no
    row lies outside, and no hour of a trip of that cell is outside
    either.  A (cell, hour) pair no
    trip fell in is present with demand = 0; a pair that was seen has its
    number of trips. *)
Theorem aggregate_dense (trips : list Trip) (resolution : Z) (c : string) :
  In c (map pickup_h3_zone (aggregate trips resolution)) ->
  exists lo hi,
    lo <= hi /\
    map pickup_hour_timestamp (series (aggregate trips resolution) c)
    = hours_between lo hi /\
    (forall h, In h (hours_between lo hi) <->
               lo <= h <= hi /\ h mod SECONDS_PER_HOUR = 0) /\
    In lo (hours_between lo hi) /\ In hi (hours_between lo hi) /\
    (forall r, In r (aggregate trips resolution) -> pickup_h3_zone r = c ->
               In (pickup_hour_timestamp r) (hours_between lo hi) /\
               demand r = trips_in (keyed trips resolution) (key_of r)) /\
    (forall h, lo <= h <= hi -> h mod SECONDS_PER_HOUR = 0 ->
               exists d, In (mkRow c h d) (aggregate trips resolution)) /\
    (forall h, lo <= h <= hi -> h mod SECONDS_PER_HOUR = 0 ->
               ~ In (c, h) (keyed trips resolution) ->
               In (mkRow c h 0) (aggregate trips resolution)) /\
    (forall h, In (c, h) (keyed trips resolution) ->
               lo <= h <= hi /\
               1 <= trips_in (keyed trips resolution) (c, h) /\
               In (mkRow c h (trips_in (keyed trips resolution) (c, h)))
                  (aggregate trips resolution)).
Proof.
  intros Hc. pose proof (aggregate_cells _ _ _ Hc) as Hseen.
  destruct (aggregate_shape trips resolution)
    as [[Hnil _] | (lo & hi & Hle & Hlo & Hhi & _ & _ & Hbounds & _ & Hseries)].
  { destruct Hseen as [h Hh]. rewrite Hnil in Hh. destruct Hh. }
  specialize (Hseries c Hseen).
  pose proof (fun h => hours_between_aligned lo hi h Hle Hlo Hhi) as Hal.
  assert (forall h, In h (hours_between lo hi) ->
            In (mkRow c h (trips_in (keyed trips resolution) (c, h)))
               (aggregate trips resolution)) as Hrow.
  { intros h Hh.
    apply (series_In (aggregate trips resolution) c). rewrite Hseries.
    apply in_map_iff. exists h. auto. }
  exists lo, hi. split; [exact Hle|].
  split.
  { rewrite Hseries, map_map. cbn [pickup_hour_timestamp]. apply map_id. }
  split; [intros h; now apply Hal|].
  split; [apply Hal; split; [lia | exact Hlo]|].
  split; [apply Hal; split; [lia | exact Hhi]|].
  split.
  { intros r Hr Hz.
    assert (In r (series (aggregate trips resolution) c)) as Hs
      by now apply series_In.
    rewrite Hseries in Hs. apply in_map_iff in Hs.
    destruct Hs as [h [<- Hh]]. simpl. auto. }
  split.
  { intros h Hr Hm. eexists. apply Hrow. apply Hal; auto. }
  split.
  { intros h Hr Hm Hun.
    rewrite <- (trips_in_unseen _ _ Hun). apply Hrow. apply Hal; auto. }
  intros h Hk. split; [eapply Hbounds; eauto|].
  split; [now apply trips_in_positive|].
  apply Hrow. apply Hal; trivial. split; [eapply Hbounds; eauto|].
  eapply keyed_aligned; eauto.
Qed.

(** Keys are unique after aggregation. *)
Lemma aggregate_keys_unique (trips : list Trip) (resolution : Z) :
  NoDup (map key_of (aggregate trips resolution)).
Proof.
  apply densify_keys_unique.
Qed.

(** *** Lag features *)

(** Each feature row comes from a row of the grid, and sees exactly the
    rows before it. *)
Lemma lag_rows_In (horizons : list nat) (grid before : DemandGrid) (f : FeatureRow) :
  In f (lag_rows horizons before grid) ->
  exists pre post,
    grid = pre ++ base f :: post /\
    lags f = map (fun H => (H, shifted (rev pre ++ before) (base f) H)) horizons.
Proof.
  revert before. induction grid as [|r grid IH]; intros before Hf; [destruct Hf|].
  destruct Hf as [<- | Hf].
  - exists [], grid. split; reflexivity.
  - destruct (IH _ Hf) as (pre & post & -> & Hl).
    exists (r :: pre), post. split; [reflexivity|].
    rewrite Hl. simpl. now rewrite <- app_assoc.
Qed.

Lemma lag_rows_base (horizons : list nat) (grid before : DemandGrid) :
  map base (lag_rows horizons before grid) = grid.
Proof.
  revert before. induction grid as [|r grid IH]; intros before; simpl;
    [reflexivity | now rewrite IH].
Qed.

Lemma lag_column_map (g : nat -> option Z) (horizons : list nat) (H : nat) :
  In H horizons ->
  lag_column H (map (fun H => (H, g H)) horizons) = Some (g H).
Proof.
  induction horizons as [|a hz IH]; intros Hin; [destruct Hin|].
  simpl. destruct (Nat.eqb a H) eqn:E.
  - apply Nat.eqb_eq in E. now subst.
  - apply Nat.eqb_neq in E. destruct Hin as [->|Hin]; [contradiction|auto].
Qed.

(** On the grid [aggregate] returns, the lag-[H] column of a row is the
    demand of the same cell's row [H] hours earlier, and is missing when
    there is no such row. *)
Lemma lag_on_aggregate
    (trips : list Trip) (resolution : Z) (horizons : list nat)
    (H : nat) (f : FeatureRow) :
  In H horizons ->
  In f (add_lag_features (aggregate trips resolution) horizons) ->
  In (base f) (aggregate trips resolution) /\
  (forall d,
     In (mkRow (pickup_h3_zone (base f))
               (pickup_hour_timestamp (base f) - SECONDS_PER_HOUR * Z.of_nat H) d)
        (aggregate trips resolution) ->
     lag H f = Some (Some d)) /\
  ((forall d,
      ~ In (mkRow (pickup_h3_zone (base f))
                  (pickup_hour_timestamp (base f) - SECONDS_PER_HOUR * Z.of_nat H) d)
           (aggregate trips resolution)) ->
   lag H f = Some None).
Proof.
  intros HH Hf. unfold add_lag_features in Hf.
  destruct (lag_rows_In _ _ _ _ Hf) as (pre & post & Hgrid & Hlags).
  rewrite app_nil_r in Hlags.
  assert (In (base f) (aggregate trips resolution)) as Hin
    by (rewrite Hgrid; apply in_elt).
  split; [exact Hin|].
  unfold lag. rewrite Hlags, (lag_column_map _ _ _ HH). clear Hlags Hf.
  set (r := base f) in *. set (c := pickup_h3_zone r).
  set (keys := keyed trips resolution).
  assert (exists h, In (c, h) keys) as Hseen
    by (apply aggregate_cells, in_map_iff; exists r; auto).
  destruct (aggregate_shape trips resolution)
    as [[Hnil _] | (lo & hi & Hle & Hlo & Hhi & _ & _ & _ & _ & Hseries)].
  { destruct Hseen as [h Hh]. unfold keys in Hh. rewrite Hnil in Hh. destruct Hh. }
  specialize (Hseries c Hseen). fold keys in Hseries.
  set (mk := fun h => mkRow c h (trips_in keys (c, h))) in *.
  (* every row of the cell is [mk] of an hour of the span *)
  assert (forall h d, In (mkRow c h d) (aggregate trips resolution) ->
            In h (hours_between lo hi) /\ d = trips_in keys (c, h)) as Hrows.
  { intros h d Hr.
    assert (In (mkRow c h d) (series (aggregate trips resolution) c)) as Hs
      by (apply series_In; auto).
    rewrite Hseries in Hs. apply in_map_iff in Hs.
    destruct Hs as [h' [E Hh']]. unfold mk in E. injection E as -> ->. auto. }
  assert (forall h, In h (hours_between lo hi) ->
            In (mk h) (aggregate trips resolution)) as Hrow.
  { intros h Hh. apply (series_In (aggregate trips resolution) c).
    rewrite Hseries. now apply in_map. }
  (* the position of [r] in its cell's series *)
  assert (series (aggregate trips resolution) c
          = series pre c ++ r :: series post c) as Hsplit.
  { rewrite Hgrid. unfold series. rewrite filter_app. simpl.
    unfold c. now rewrite String.eqb_refl. }
  rewrite Hseries in Hsplit. unfold hours_between in Hsplit.
  rewrite map_map in Hsplit.
  set (g := fun k : nat => lo + SECONDS_PER_HOUR * Z.of_nat k) in *.
  apply map_eq_app in Hsplit. destruct Hsplit as (a & b' & Hseq & Hpre & Hb).
  apply map_eq_cons in Hb. destruct Hb as (x & b & -> & Hr & _).
  apply seq_split in Hseq. destruct Hseq as (Ha & Hx & Hlt).
  simpl in Hx. set (k := List.length a) in *. subst x.
  assert (pickup_hour_timestamp r = g k) as HT by (rewrite <- Hr; reflexivity).
  assert (demand r = trips_in keys (c, g k)) as HD by (rewrite <- Hr; reflexivity).
  assert (series (rev pre) c = rev (map (fun k => mk (g k)) (seq 0 k))) as Hbefore.
  { unfold series. rewrite filter_rev. f_equal. fold (series pre c).
    rewrite <- Hpre, Ha at 1. reflexivity. }
  fold c. rewrite HT.
  destruct H as [|j]; cbn [shifted].
  - (* horizon 0: the row itself *)
    replace (g k - SECONDS_PER_HOUR * Z.of_nat 0) with (g k) by lia.
    split.
    + intros d Hd. destruct (Hrows _ _ Hd) as [_ ->]. now rewrite HD.
    + intros Hno. exfalso. apply (Hno (demand r)).
      rewrite <- HT. destruct r; exact Hin.
  - fold c. rewrite Hbefore, nth_error_rev_seq.
    destruct (Nat.ltb_spec j k) as [Hjk|Hjk]; cbn [option_map demand mk].
    + assert (g (k - S j)%nat = g k - SECONDS_PER_HOUR * Z.of_nat (S j)) as Eh
        by (unfold g, SECONDS_PER_HOUR; lia).
      rewrite Eh. split.
      * intros d Hd. destruct (Hrows _ _ Hd) as [_ ->]. reflexivity.
      * intros Hno. exfalso. eapply Hno. rewrite <- Eh. apply Hrow.
        unfold hours_between. apply in_map_iff. exists (k - S j)%nat.
        split; [reflexivity|]. apply in_seq. lia.
    + split; [|reflexivity].
      intros d Hd. exfalso. destruct (Hrows _ _ Hd) as [Hh _].
      apply hours_between_In in Hh. destruct Hh as [k' [_ Hk']].
      unfold g, SECONDS_PER_HOUR in Hk'. lia.
Qed.

(** C3. The feature table has exactly the rows of the aggregated grid,
    in order, each with its lag columns.  For every configured lag
    horizon H and every row of the table, at cell c and hour T, the
    lag-H column equals the demand of the same cell's row at hour T-H,
    and holds a missing value (not zero) when the cell has no row at
    T-H. *)
Theorem lag_feature_correct (trips : list Trip) (resolution : Z) :
  map base (add_lag_features (aggregate trips resolution) LAG_FEATURES_HOURS)
  = aggregate trips resolution /\
  forall H f,
    In H LAG_FEATURES_HOURS ->
    In f (add_lag_features (aggregate trips resolution) LAG_FEATURES_HOURS) ->
    (forall d,
       In (mkRow (pickup_h3_zone (base f))
                 (pickup_hour_timestamp (base f) - SECONDS_PER_HOUR * Z.of_nat H) d)
          (aggregate trips resolution) ->
       lag H f = Some (Some d)) /\
    ((forall d,
        ~ In (mkRow (pickup_h3_zone (base f))
                    (pickup_hour_timestamp (base f) - SECONDS_PER_HOUR * Z.of_nat H) d)
             (aggregate trips resolution)) ->
     lag H f = Some None /\ lag H f <> Some (Some 0)).
Proof.
  split; [apply lag_rows_base|].
  intros H f HH Hf.
  destruct (lag_on_aggregate trips resolution _ H f HH Hf) as (_ & Hsome & Hnone).
  split; [exact Hsome|].
  intros Hno. rewrite (Hnone Hno). split; [reflexivity | discriminate].
Qed.

End Grid.

End PipelineProps.

(* ================================================================== *)
(** ** The code run on concrete inputs *)

Module Scenarios.

Import Config Utils DataLoader Pipeline Reference.
Import UtilsProps DataLoaderProps PipelineProps.
Local Open Scope Z_scope.

(** The reference libraries meet the contracts. *)
Lemma ref_pandas_contract : @PandasContract ref_pandas.
Proof.
  split; simpl; intros; reflexivity.
Qed.

Lemma toy_h3_contract : @H3Contract toy_h3.
Proof.
  split. simpl. intros lat lon resolution c.
  unfold toy_geo_to_h3.
  destruct lat as [| | |[| |]| | | | |]; try discriminate;
    destruct lon as [| | |[| |]| | | | |]; try discriminate;
    destruct resolution; try discriminate; auto.
Qed.

#[local] Existing Instance ref_pandas.
#[local] Existing Instance toy_h3.
#[local] Existing Instance ref_shapely.
#[local] Existing Instance empty_disk.

Example cell_of_valid :
  geo_to_h3_safe lat_ok lon_ok (VInt H3_RESOLUTION) [] = (Normal (Some the_cell), []).
Proof. reflexivity. Qed.

Example cell_of_invalid_latitude :
  geo_to_h3_safe lat_999 lon_ok (VInt H3_RESOLUTION) [] = (Normal None, []).
Proof. reflexivity. Qed.

Example cell_of_list :
  geo_to_h3_safe (VList [lat_ok; lat_ok]) lon_ok (VInt H3_RESOLUTION) []
  = (Normal None, []).
Proof. reflexivity. Qed.

Example cell_of_null :
  geo_to_h3_safe VNone lon_ok (VInt H3_RESOLUTION) [] = (Normal None, []) /\
  geo_to_h3_safe lat_ok (VFloat FNaN) (VInt H3_RESOLUTION) [] = (Normal None, []).
Proof. split; reflexivity. Qed.

Example boundary_of_bad_index :
  get_h3_boundary_geojson (VInt 5) []
  = (Normal None,
     [boundary_warning (VInt 5) (Exn "TypeError" [FText "expected str"])]) /\
  h3_to_polygon (VStr "") []
  = (Normal None,
     [polygon_warning (VStr "") (Exn "H3CellError" [FVal (VStr "")])]) /\
  get_h3_centroid VNone []
  = (Normal (None, None),
     [centroid_warning VNone (Exn "TypeError" [FText "expected str"])]).
Proof. repeat split; reflexivity. Qed.

Example polygon_of_cell :
  h3_to_polygon (VStr the_cell) []
  = (Normal (Some (mkPolygon
       [(FFinite 1 0, FFinite 0 0); (FFinite 2 0, FFinite 1 0);
        (FFinite 2 0, FFinite 2 0); (FFinite 1 0, FFinite 3 0);
        (FFinite 0 0, FFinite 2 0); (FFinite 0 0, FFinite 1 0)])), []).
Proof. reflexivity. Qed.

(** The boundary file, unreadable and readable. *)
Example boroughs_unreadable :
  fst (@load_borough_boundaries
         (ref_disk None (Some (Raise (Exn "DriverError" [FText "not GeoJSON"])))) [])
  = Normal None.
Proof. reflexivity. Qed.

Example boroughs_readable :
  fst (@load_borough_boundaries
         (ref_disk None (Some (Normal [[("boro_name", VStr "Manhattan")]]))) [])
  = Normal (Some [[("boro_name", VStr "Manhattan")]]).
Proof. reflexivity. Qed.

(** With the trip file in place the load returns its rows, and the
    script goes on to the boundaries. *)
Example trips_readable :
  fst (@load_raw_taxi_data
         (ref_disk (Some (Normal [[("pickup_latitude", lat_ok)]])) None) [])
  = Normal [[("pickup_latitude", lat_ok)]] /\
  fst (@main (ref_disk (Some (Normal [[("pickup_latitude", lat_ok)]])) None) [])
  = Normal tt.
Proof. split; reflexivity. Qed.

(** Three trips in one cell at 00:00, 02:00 and 02:30: demand 1 at hour
    00, 0 at hour 01 (densified), 2 at hour 02. *)
Example three_trips_grid :
  aggregate three_trips H3_RESOLUTION
  = [mkRow the_cell day 1; mkRow the_cell (day + 3600) 0;
     mkRow the_cell (day + 7200) 2].
Proof. vm_compute. reflexivity. Qed.

(** A trip with latitude 999 is excluded from all counts. *)
Example bad_trip_excluded :
  aggregate (bad_trip :: three_trips) H3_RESOLUTION
  = aggregate three_trips H3_RESOLUTION.
Proof. vm_compute. reflexivity. Qed.

(** Without densification the lag columns are taken from the wrong
    hours: the row at 02:00 would get the demand of 00:00 as its
    one-hour lag. *)
Example lag_needs_densification :
  map (lag 1) (add_lag_features (count_trips (keyed three_trips H3_RESOLUTION)) [1%nat])
  = [Some None; Some (Some 1)]
  /\
  map (lag 1) (add_lag_features (aggregate three_trips H3_RESOLUTION) [1%nat])
  = [Some None; Some (Some 1); Some (Some 0)].
Proof. split; vm_compute; reflexivity. Qed.

Lemma geo_to_h3_safe_never_raises_witness :
  exists r,
    geo_to_h3_safe lat_ok lon_ok (VInt H3_RESOLUTION) [] = (Normal r, []) /\
    r = Some the_cell.
Proof.
  destruct (geo_to_h3_safe_never_raises
              (pandas_ok := ref_pandas_contract)
              (h3_ok := toy_h3_contract)
              lat_ok lon_ok (VInt H3_RESOLUTION) [])
    as (r & Hr & _ & _ & Hcell).
  exists r. split; [exact Hr|].
  apply Hcell; reflexivity.
Defined.

Lemma aggregate_dense_witness :
  exists lo hi,
    lo <= hi /\
    map pickup_hour_timestamp (series (aggregate three_trips H3_RESOLUTION) the_cell)
    = hours_between lo hi.
Proof.
  destruct (aggregate_dense three_trips H3_RESOLUTION the_cell)
    as (lo & hi & Hle & Hhours & _).
  - vm_compute. left. reflexivity.
  - exists lo, hi. split; assumption.
Defined.

Lemma lag_feature_correct_witness :
  map base (add_lag_features (aggregate three_trips H3_RESOLUTION) LAG_FEATURES_HOURS)
  = [mkRow the_cell day 1; mkRow the_cell (day + 3600) 0;
     mkRow the_cell (day + 7200) 2] /\
  lag 1 row_0100 = Some (Some 1) /\ lag 2 row_0100 = Some None.
Proof.
  destruct (lag_feature_correct three_trips H3_RESOLUTION) as [Hrows Hlag].
  split; [rewrite Hrows; vm_compute; reflexivity|].
  split.
  - apply (Hlag 1%nat row_0100).
    + simpl. auto.
    + vm_compute. right. left. reflexivity.
    + vm_compute. left. reflexivity.
  - apply (Hlag 2%nat row_0100).
    + simpl. auto.
    + vm_compute. right. left. reflexivity.
    + intros d Hd. vm_compute in Hd.
      destruct Hd as [E|[E|[E|[]]]]; discriminate E.
Defined.

Lemma load_raw_taxi_data_missing_file_witness :
  load_raw_taxi_data [] = (Raise raw_file_not_found, missing_raw_events) /\
  main [] = (Raise raw_file_not_found, missing_raw_events).
Proof.
  destruct (load_raw_taxi_data_missing_file (disk := empty_disk) [] eq_refl)
    as (Hload & _ & _ & Hmain).
  split; assumption.
Defined.

Lemma geojson_feature_shape_witness :
  exists properties,
    dict_get (feature (map lon_lat toy_hexagon ++ [(FFinite 1 0, FFinite 0 0)])
                      (VStr the_cell)) "properties" = Some properties /\
    dict_get properties "id" = Some (VStr the_cell).
Proof.
  destruct (geojson_feature_shape (h3 := toy_h3) (VStr the_cell) [] [] _ eq_refl)
    as (properties & geometry & ring & _ & Hp & Hid & _).
  exists properties. split; assumption.
Defined.

Lemma h3_to_polygon_vertices_witness :
  exists b,
    h3_h3_to_geo_boundary (VStr the_cell) false = Normal b /\
    exterior (mkPolygon (map lon_lat toy_hexagon)) = map lon_lat b.
Proof.
  destruct (h3_to_polygon_vertices (h3 := toy_h3) (shapely := ref_shapely)
              (VStr the_cell) [] [] _ eq_refl)
    as (b & Hb & Hext & _).
  exists b. split; assumption.
Defined.

End Scenarios.

(* ================================================================== *)
(** ** Effects over a state of one's own *)

(** The functions below act on more than the trace: files are written,
    requests are sent, directories are made.  They run in the same kind
    of computation as [M], over the state they need. *)
Module Effects.

Definition ST (S A : Type) : Type := S -> outcome A * S.

Definition st_ret {S A} (a : A) : ST S A := fun s => (Normal a, s).

Definition st_bind {S A B} (m : ST S A) (k : A -> ST S B) : ST S B :=
  fun s => match m s with
           | (Normal a, s') => k a s'
           | (Raise e, s') => (Raise e, s')
           end.

Definition st_raise {S A} (e : exn) : ST S A := fun s => (Raise e, s).

(** [try: body except C as e: handler e], for the exception classes
    [catches] recognises; any other exception goes through. *)
Definition try_except_if {S A} (catches : exn -> bool)
    (body : ST S A) (handler : exn -> ST S A) : ST S A :=
  fun s => match body s with
           | (Normal a, s') => (Normal a, s')
           | (Raise e, s') => if catches e then handler e s' else (Raise e, s')
           end.

End Effects.

Export Effects.

Declare Scope st_scope.
Delimit Scope st_scope with st.
Notation "x <- m ;; k" := (st_bind m (fun x => k))
  (at level 61, m at next level, right associativity) : st_scope.
Notation "m ;;; k" := (st_bind m (fun _ => k))
  (at level 61, right associativity) : st_scope.

(* ================================================================== *)
(** ** src/utils.py: the file download utility *)

Module Download.

Local Open Scope st_scope.

Definition bytes := list Byte.byte.

(** What a path names on disk. *)
Inductive node : Type :=
| File (content : bytes)
| Dir.

(** An HTTP response opened with [stream=True]: the error
    [raise_for_status] raises (if any), and the body as [iter_content]
    delivers it: some chunks, then the end of the stream or an error. *)
Record response : Type := mkResponse {
  status_error : option exn;
  chunks : list bytes;
  stream_error : option exn
}.

(** The state [download_file] acts on: the files, the requests sent so
    far, the log. *)
Record world : Type := mkWorld {
  files : string -> option node;
  sent : list string;
  log : trace
}.

(** [requests]: what [requests.get(url, stream=True)] answers, given the
    requests sent before, and membership in
    [requests.exceptions.RequestException]. *)
Class Requests : Type := {
  requests_get : list string -> string -> outcome response;
  is_RequestException : exn -> bool
}.

(** The operating system's say on opening a file for writing and on
    writing to it: [None] lets the operation through. *)
Class FileSystem : Type := {
  open_refused : (string -> option node) -> string -> option exn;
  write_refused : bytes -> bytes -> option exn
}.

Definition startswith_sep (s : string) : bool :=
  match s with
  | String c _ => Ascii.eqb c "/"%char
  | EmptyString => false
  end.

Fixpoint endswith_sep (s : string) : bool :=
  match s with
  | EmptyString => false
  | String c EmptyString => Ascii.eqb c "/"%char
  | String _ rest => endswith_sep rest
  end.

(** [os.path.join(a, b)] (POSIX): an absolute [b] replaces [a]; otherwise
    [b] is appended, after a separator unless [a] is empty or ends with
    one. *)
Definition os_path_join (a b : string) : string :=
  if startswith_sep b then b
  else if String.eqb a "" || endswith_sep a then String.append a b
  else String.append a (String.append "/" b).

Definition is_some {A} (o : option A) : bool :=
  match o with Some _ => true | None => false end.

(** The bytes of the regular file at [p]; none when there is no such
    file. *)
Definition content_of (w : world) (p : string) : bytes :=
  match files w p with
  | Some (File c) => c
  | _ => []
  end.

Definition set_file (w : world) (p : string) (c : bytes) : world :=
  mkWorld (fun q => if String.eqb q p then Some (File c) else files w q)
          (sent w) (log w).

Definition logged (w : world) (records : trace) : world :=
  mkWorld (files w) (sent w) (log w ++ records).

Definition log_record (lv : level) (msg : fstring) : ST world unit :=
  fun w => (Normal tt, logged w [Log lv msg]).

Definition os_path_exists (p : string) : ST world bool :=
  fun w => (Normal (is_some (files w p)), w).

Section Code.
Context `{requests : Requests} `{fs : FileSystem}.

(** [requests.get(url, stream=True)]: the request goes out, whatever the
    answer. *)
Definition get_stream (url : string) : ST world response :=
  fun w => (requests_get (sent w) url,
            mkWorld (files w) (sent w ++ [url]) (log w)).

Definition raise_for_status (r : response) : ST world unit :=
  match status_error r with
  | Some e => st_raise e
  | None => st_ret tt
  end.

(** [open(p, "wb")]: the file is created, or emptied if it was there. *)
Definition open_wb (p : string) : ST world unit :=
  fun w => match files w p with
           | Some Dir => (Raise (Exn "IsADirectoryError" [FVal (VStr p)]), w)
           | _ => match open_refused (files w) p with
                  | Some e => (Raise e, w)
                  | None => (Normal tt, set_file w p [])
                  end
           end.

(** [f.write(chunk)] on the file opened at [p]. *)
Definition write (p : string) (chunk : bytes) : ST world unit :=
  fun w => match write_refused (content_of w p) chunk with
           | Some e => (Raise e, w)
           | None => (Normal tt, set_file w p (content_of w p ++ chunk))
           end.

(** [for chunk in tqdm(response.iter_content(chunk_size=8192)): f.write(chunk)]:
    each chunk is written as it arrives; an error of the stream comes
    after the chunks before it.  ([tqdm] only draws a progress bar.) *)
Fixpoint write_chunks (p : string) (cs : list bytes) : ST world unit :=
  match cs with
  | [] => st_ret tt
  | c :: rest => write p c ;;; write_chunks p rest
  end.

Definition write_stream (p : string) (r : response) : ST world unit :=
  write_chunks p (chunks r) ;;;
  match stream_error r with
  | Some e => st_raise e
  | None => st_ret tt
  end.

(** Helper to download file if not exists.  The function's final
    [return filepath] is reached from the [else] branch and from the end
    of the [try] body; the handler returns [None]. *)
Definition download_file (url filename data_dir : string) : ST world (option string) :=
  let filepath := os_path_join data_dir filename in
  found <- os_path_exists filepath ;;
  if negb found then
    log_record INFO [FText "Downloading "; FVal (VStr filename); FText " to ";
                     FVal (VStr data_dir); FText "..."] ;;;
    try_except_if is_RequestException
      (response <- get_stream url ;;
       raise_for_status response ;;;
       open_wb filepath ;;;
       write_stream filepath response ;;;
       log_record INFO [FText "Download complete: "; FVal (VStr filepath)] ;;;
       st_ret (Some filepath))
      (fun e =>
         log_record ERROR [FText "Failed to download "; FVal (VStr filename);
                           FText ": "; FExc e] ;;;
         st_ret None)
  else
    log_record INFO [FVal (VStr filename); FText " already exists in ";
                     FVal (VStr data_dir); FText "."] ;;;
    st_ret (Some filepath).

End Code.

End Download.

(* ================================================================== *)
(** ** src/config.py: the output directories *)

Module ConfigImport.

Import Config.
Local Open Scope st_scope.

Section Paths.
Context `{disk : Disk}.

(** Processed data paths. *)
Definition PREPROCESSED_DATA_DIR : path := DATA_DIR ++ ["processed"].
Definition PREPROCESSED_TAXI_DATA_FILE : path :=
  PREPROCESSED_DATA_DIR ++ ["preprocessed_taxi_data.parquet"].
Definition FEATURE_ENGINEERED_DATA_FILE : path :=
  PREPROCESSED_DATA_DIR ++ ["feature_engineered_demand.parquet"].
Definition CLUSTERED_DATA_FILE : path :=
  PREPROCESSED_DATA_DIR ++ ["clustered_demand.parquet"].

(** Model paths. *)
Definition MODEL_DIR : path := PROJECT_ROOT ++ ["models"].
Definition MODEL_FILE : path := MODEL_DIR ++ ["lgbm_demand_forecaster.joblib"].

(** Report paths. *)
Definition REPORTS_DIR : path := PROJECT_ROOT ++ ["reports"].
Definition FIGURES_DIR : path := REPORTS_DIR ++ ["figures"].
Definition MAPS_DIR : path := REPORTS_DIR ++ ["maps"].

End Paths.

(** [pathlib]: a directory tree, and [Path.mkdir(parents=True,
    exist_ok=True)] on it. *)
Class Pathlib : Type := {
  tree : Type;
  is_dir : tree -> path -> bool;
  mkdir_parents_exist_ok : path -> ST tree unit
}.

(** What the properties use of [mkdir(parents=True, exist_ok=True)]:
    when it returns, the path and its ancestors are directories; it
    removes no directory, even when it fails; on a directory that is
    already there it does nothing. *)
Class PathlibContract `{Pathlib} : Prop := {
  mkdir_makes :
    forall p s s' n,
      mkdir_parents_exist_ok p s = (Normal tt, s') ->
      is_dir s' (firstn n p) = true;
  mkdir_keeps :
    forall p s o s' q,
      mkdir_parents_exist_ok p s = (o, s') ->
      is_dir s q = true -> is_dir s' q = true;
  mkdir_exist_ok :
    forall p s,
      is_dir s p = true -> mkdir_parents_exist_ok p s = (Normal tt, s)
}.

Section Code.
Context `{disk : Disk} `{pathlib : Pathlib}.

(** Ensure directories exist: what importing the module does to the
    disk. *)
Definition ensure_directories : ST tree unit :=
  mkdir_parents_exist_ok PREPROCESSED_DATA_DIR ;;;
  mkdir_parents_exist_ok MODEL_DIR ;;;
  mkdir_parents_exist_ok FIGURES_DIR ;;;
  mkdir_parents_exist_ok MAPS_DIR.

(** The directories later stages write to, and their parents below the
    project root. *)
Definition output_directories : list path :=
  [DATA_DIR; PREPROCESSED_DATA_DIR; MODEL_DIR; REPORTS_DIR; FIGURES_DIR; MAPS_DIR].

End Code.

End ConfigImport.

(* ================================================================== *)
(** ** More of the libraries' contracts, and of the loaders' traces *)

Module MoreContracts.

Import Utils.

(** [h3_to_geo_boundary(h, geo_json=True)] is the same boundary as with
    [geo_json=False], closed (the first vertex repeated at the end) and
    with each pair in (lng, lat) order; an invalid cell is an error
    either way. *)
Class H3BoundaryContract `{H3} : Prop := {
  boundary_geo_json :
    forall h b,
      h3_h3_to_geo_boundary h false = Normal b ->
      h3_h3_to_geo_boundary h true = Normal (map lon_lat (b ++ firstn 1 b));
  boundary_geo_json_error :
    forall h e,
      h3_h3_to_geo_boundary h false = Raise e ->
      exists e', h3_h3_to_geo_boundary h true = Raise e'
}.

End MoreContracts.

Module LoaderTraces.

Import Config DataLoader.

Section Traces.
Context `{disk : Disk}.

(** What [load_raw_taxi_data] leaves in the trace up to and including
    the read. *)
Definition reading_raw_events : trace :=
  [FileOp "exists" RAW_TAXI_DATA_FILE;
   Log INFO [FText "Loading raw taxi data from "; FPath RAW_TAXI_DATA_FILE;
             FText "..."];
   FileOp "read_csv" RAW_TAXI_DATA_FILE].

Definition loaded_record (df : DataFrame) : event :=
  Log INFO [FText "Loaded "; FNum (len df); FText " trips."].

(** The frames a trace shows as printed, in order. *)
Definition printed (t : trace) : list DataFrame :=
  flat_map (fun ev => match ev with Printed f => [f] | _ => [] end) t.

End Traces.

End LoaderTraces.

(* ================================================================== *)
(** ** Properties of the file download utility *)

Module DownloadProps.

Import Download.
Local Open Scope st_scope.

Ltac st_run :=
  unfold write_stream, raise_for_status, get_stream, open_wb,
         os_path_exists, log_record, try_except_if,
         st_bind, st_ret, st_raise, logged in *;
  simpl in *.

(** The log records of [download_file]. *)
Definition downloading_record (filename data_dir : string) : event :=
  Log INFO [FText "Downloading "; FVal (VStr filename); FText " to ";
            FVal (VStr data_dir); FText "..."].

Definition complete_record (filepath : string) : event :=
  Log INFO [FText "Download complete: "; FVal (VStr filepath)].

Definition failed_record (filename : string) (e : exn) : event :=
  Log ERROR [FText "Failed to download "; FVal (VStr filename);
             FText ": "; FExc e].

Definition exists_record (filename data_dir : string) : event :=
  Log INFO [FVal (VStr filename); FText " already exists in ";
            FVal (VStr data_dir); FText "."].

Lemma set_file_same (w : world) (p : string) (c : bytes) :
  files (set_file w p c) p = Some (File c).
Proof. simpl. now rewrite String.eqb_refl. Qed.

Lemma set_file_other (w : world) (p q : string) (c : bytes) :
  q <> p -> files (set_file w p c) q = files w q.
Proof. intros Hne. simpl. apply String.eqb_neq in Hne. now rewrite Hne. Qed.

Lemma content_of_set_file (w : world) (p : string) (c : bytes) :
  content_of (set_file w p c) p = c.
Proof. unfold content_of. now rewrite set_file_same. Qed.

Section Writes.
Context `{requests : Requests} `{fs : FileSystem}.

(** Writing chunks to [p] touches nothing but the file at [p], which is
    there afterwards if it was there before, whether or not a write is
    refused on the way. *)
Lemma write_chunks_frame (p : string) (cs : list bytes) :
  forall w o w',
    write_chunks p cs w = (o, w') ->
    sent w' = sent w /\ log w' = log w /\
    (forall q, q <> p -> files w' q = files w q) /\
    (files w p <> None -> files w' p <> None).
Proof.
  induction cs as [|c cs IH]; intros w o w' E; simpl in E.
  - unfold st_ret in E. injection E as <- <-. auto.
  - unfold st_bind, write in E.
    destruct (write_refused (content_of w p) c) as [e|].
    + injection E as <- <-. auto.
    + apply IH in E. destruct E as (Hs & Hl & Hq & Hp).
      simpl in Hs, Hl. repeat split; trivial.
      * intros q Hne. rewrite (Hq q Hne). now apply set_file_other.
      * intros _. apply Hp. rewrite set_file_same. discriminate.
Qed.

(** When no write is refused, the chunks end up in the file, in order. *)
Lemma write_chunks_all (p : string) (cs : list bytes) :
  (forall old c, write_refused old c = None) ->
  forall w old,
    files w p = Some (File old) ->
    exists w',
      write_chunks p cs w = (Normal tt, w') /\
      files w' p = Some (File (old ++ List.concat cs)).
Proof.
  intros Hok. induction cs as [|c cs IH]; intros w old Hf; simpl.
  - exists w. unfold st_ret. now rewrite app_nil_r.
  - unfold st_bind, write. rewrite Hok.
    assert (content_of w p = old) as -> by (unfold content_of; now rewrite Hf).
    destruct (IH (set_file w p (old ++ c)) (old ++ c) (set_file_same _ _ _))
      as (w' & E & Hc).
    exists w'. split; [exact E|]. now rewrite Hc, app_assoc.
Qed.

(** The file is there: one record, and nothing else happens. *)
Lemma download_file_found (url filename data_dir : string) (w : world) :
  files w (os_path_join data_dir filename) <> None ->
  download_file url filename data_dir w
  = (Normal (Some (os_path_join data_dir filename)),
     logged w [exists_record filename data_dir]).
Proof.
  intros Hf. unfold download_file. st_run.
  destruct (files w (os_path_join data_dir filename)); [reflexivity|contradiction].
Qed.

(** Whenever a path is returned, a file or directory is at it. *)
Lemma download_file_some (url filename data_dir : string) (w w' : world) (p : string) :
  download_file url filename data_dir w = (Normal (Some p), w') ->
  p = os_path_join data_dir filename /\ files w' p <> None.
Proof.
  unfold download_file. st_run.
  set (fp := os_path_join data_dir filename).
  destruct (files w fp) as [n|] eqn:Hf; simpl.
  - intros E. injection E as <- <-. simpl. split; [reflexivity|]. now rewrite Hf.
  - destruct (requests_get (sent w) url) as [r|e]; simpl.
    2:{ destruct (is_RequestException e); intros E; discriminate E. }
    destruct (status_error r) as [e|]; simpl.
    { destruct (is_RequestException e); intros E; discriminate E. }
    rewrite Hf.
    destruct (open_refused (files w) fp) as [e|]; simpl.
    { destruct (is_RequestException e); intros E; discriminate E. }
    match goal with
    | |- context [write_chunks fp (chunks r) ?w0] =>
        destruct (write_chunks fp (chunks r) w0) as [o w1] eqn:Ew
    end.
    apply write_chunks_frame in Ew. destruct Ew as (_ & _ & _ & Hp).
    destruct o as [[]|e]; simpl.
    + destruct (stream_error r) as [e|]; simpl.
      * destruct (is_RequestException e); intros E; discriminate E.
      * intros E. injection E as <- <-. split; [reflexivity|]. simpl.
        apply Hp. rewrite set_file_same. discriminate.
    + destruct (is_RequestException e); intros E; discriminate E.
Qed.

(** What happens between the request and the end of the [try] body,
    once the response is in and its status is fine. *)
Lemma download_file_streaming
    (url filename data_dir : string) (w : world) (r : response) :
  files w (os_path_join data_dir filename) = None ->
  requests_get (sent w) url = Normal r ->
  status_error r = None ->
  open_refused (files w) (os_path_join data_dir filename) = None ->
  (forall old c, write_refused old c = None) ->
  exists w1,
    files w1 (os_path_join data_dir filename)
    = Some (File (List.concat (chunks r))) /\
    (forall q, q <> os_path_join data_dir filename -> files w1 q = files w q) /\
    sent w1 = sent w ++ [url] /\
    log w1 = log w ++ [downloading_record filename data_dir] /\
    download_file url filename data_dir w
    = match stream_error r with
      | None => (Normal (Some (os_path_join data_dir filename)),
                 logged w1 [complete_record (os_path_join data_dir filename)])
      | Some e =>
          if is_RequestException e
          then (Normal None, logged w1 [failed_record filename e])
          else (Raise e, w1)
      end.
Proof.
  intros Hf Hget Hstatus Hopen Hwrite.
  set (fp := os_path_join data_dir filename) in *.
  set (w0 := set_file (mkWorld (files w) (sent w ++ [url])
                         (log w ++ [downloading_record filename data_dir]))
                      fp []).
  destruct (write_chunks_all fp (chunks r) Hwrite w0 [] (set_file_same _ _ _))
    as (w1 & Ew & Hc).
  pose proof (write_chunks_frame fp (chunks r) _ _ _ Ew) as (Hs & Hl & Hq & _).
  exists w1. split; [exact Hc|].
  split; [intros q Hne; rewrite (Hq q Hne); unfold w0;
          now rewrite set_file_other|].
  split; [exact Hs|]. split; [exact Hl|].
  unfold download_file. fold fp. st_run.
  rewrite Hf. simpl. rewrite Hget. simpl. rewrite Hstatus. simpl.
  rewrite Hf, Hopen. simpl.
  change (write_chunks fp (chunks r) _) with (write_chunks fp (chunks r) w0).
  rewrite Ew. simpl.
  destruct (stream_error r) as [e|]; simpl; reflexivity.
Qed.

(** X1. When the target file is already there, [download_file] returns
    its path at once: no request is sent, no file is touched, and the
    only record is the "already exists" one. *)
Theorem download_file_cached (url filename data_dir : string) (w : world) :
  files w (os_path_join data_dir filename) <> None ->
  exists w',
    download_file url filename data_dir w
    = (Normal (Some (os_path_join data_dir filename)), w') /\
    sent w' = sent w /\
    files w' = files w /\
    log w' = log w ++ [exists_record filename data_dir].
Proof.
  intros Hf. eexists. split; [now apply download_file_found|].
  repeat split.
Qed.


(** X3. When the target file is missing and the request fails with a
    [RequestException], raised by [requests.get] or by
    [raise_for_status], [download_file] returns null and logs the
    failure; no file has been created or changed. *)
Theorem download_file_request_failure
    (url filename data_dir : string) (w : world) (e : exn) :
  files w (os_path_join data_dir filename) = None ->
  requests_get (sent w) url = Raise e \/
  (exists r, requests_get (sent w) url = Normal r /\ status_error r = Some e) ->
  is_RequestException e = true ->
  exists w',
    download_file url filename data_dir w = (Normal None, w') /\
    files w' = files w /\
    sent w' = sent w ++ [url] /\
    log w' = log w ++ [downloading_record filename data_dir;
                       failed_record filename e].
Proof.
  intros Hf Hfail Hre. unfold download_file. st_run.
  rewrite Hf. simpl.
  destruct Hfail as [Hget | [r [Hget Hstatus]]]; rewrite Hget; simpl.
  - rewrite Hre. eexists. split; [reflexivity|]. simpl.
    rewrite <- app_assoc. auto.
  - rewrite Hstatus. simpl. rewrite Hre. eexists. split; [reflexivity|].
    simpl. rewrite <- app_assoc. auto.
Qed.

(** X4. When the stream breaks with a [RequestException] after some
    chunks, [download_file] returns null, but the file stays on disk with
    the chunks received so far; a later call finds it, sends no request
    and returns its path as if the download were complete. *)
Theorem download_file_partial
    (url filename data_dir : string) (w : world) (r : response) (e : exn) :
  files w (os_path_join data_dir filename) = None ->
  requests_get (sent w) url = Normal r ->
  status_error r = None ->
  stream_error r = Some e ->
  is_RequestException e = true ->
  open_refused (files w) (os_path_join data_dir filename) = None ->
  (forall old c, write_refused old c = None) ->
  exists w',
    download_file url filename data_dir w = (Normal None, w') /\
    files w' (os_path_join data_dir filename)
    = Some (File (List.concat (chunks r))) /\
    forall url2, exists w'',
      download_file url2 filename data_dir w'
      = (Normal (Some (os_path_join data_dir filename)), w'') /\
      sent w'' = sent w' /\ files w'' = files w'.
Proof.
  intros Hf Hget Hstatus Hstream Hre Hopen Hwrite.
  destruct (download_file_streaming url filename data_dir w r
              Hf Hget Hstatus Hopen Hwrite)
    as (w1 & Hc & _ & _ & _ & E).
  rewrite Hstream, Hre in E. eexists. split; [exact E|].
  split; [exact Hc|].
  intros url2. eexists. split.
  - apply download_file_found. simpl. rewrite Hc. discriminate.
  - split; reflexivity.
Qed.

(** X5. [download_file] never lets a [RequestException] out: an
    exception it raises is of another class. *)
Theorem download_file_no_request_exception
    (url filename data_dir : string) (w w' : world) (e : exn) :
  download_file url filename data_dir w = (Raise e, w') ->
  is_RequestException e = false.
Proof.
  unfold download_file. st_run.
  destruct (files w (os_path_join data_dir filename)); simpl;
    [intros E; discriminate E|].
  match goal with
  | |- (let (o, s') := ?body in _) = _ -> _ => destruct body as [[a|e0] s1]
  end; simpl.
  - intros E; discriminate E.
  - destruct (is_RequestException e0) eqn:Hre; intros E;
      [discriminate E | injection E as <- _; exact Hre].
Qed.

(** X6. An error of another class is not handled: when the file cannot
    be opened for writing, [download_file] raises the operating system's
    error, after the request has been sent and without logging the
    failure; no file is created. *)
Theorem download_file_open_refused
    (url filename data_dir : string) (w : world) (r : response) (e : exn) :
  files w (os_path_join data_dir filename) = None ->
  requests_get (sent w) url = Normal r ->
  status_error r = None ->
  open_refused (files w) (os_path_join data_dir filename) = Some e ->
  is_RequestException e = false ->
  exists w',
    download_file url filename data_dir w = (Raise e, w') /\
    files w' = files w /\
    sent w' = sent w ++ [url] /\
    log w' = log w ++ [downloading_record filename data_dir].
Proof.
  intros Hf Hget Hstatus Hopen Hre. unfold download_file. st_run.
  rewrite Hf. simpl. rewrite Hget. simpl. rewrite Hstatus. simpl.
  rewrite Hf, Hopen. simpl. rewrite Hre.
  eexists. split; [reflexivity|]. auto.
Qed.

(** X7. Whenever [download_file] returns a path, it is
    [os.path.join(data_dir, filename)] and something exists at it
    afterwards. *)
Theorem download_file_returns_existing
    (url filename data_dir : string) (w w' : world) (p : string) :
  download_file url filename data_dir w = (Normal (Some p), w') ->
  p = os_path_join data_dir filename /\ files w' p <> None.
Proof.
  apply download_file_some.
Qed.

(** X8. Downloading is done once: after a call that returned a path, a
    second call for the same file, from whatever URL, returns the same
    path, sends no request and leaves the files as they are. *)
Theorem download_file_twice
    (url url2 filename data_dir : string) (w w' : world) (p : string) :
  download_file url filename data_dir w = (Normal (Some p), w') ->
  exists w'',
    download_file url2 filename data_dir w' = (Normal (Some p), w'') /\
    sent w'' = sent w' /\ files w'' = files w' /\
    log w'' = log w' ++ [exists_record filename data_dir].
Proof.
  intros E. apply download_file_some in E. destruct E as [-> Hex].
  eexists. split; [now apply download_file_found|]. repeat split.
Qed.

(** X9. Where the download lands: an absolute [filename] is used as it
    is, and [data_dir] plays no part; a relative [filename] is appended
    to [data_dir] directly when [data_dir] is empty or ends with a
    separator, and after one "/" in every other case. *)
Theorem download_file_location
    (url filename data_dir : string) (w w' : world) (p : string) :
  download_file url filename data_dir w = (Normal (Some p), w') ->
  (startswith_sep filename = true -> p = filename) /\
  (startswith_sep filename = false ->
   data_dir = "" \/ endswith_sep data_dir = true ->
   p = String.append data_dir filename) /\
  (startswith_sep filename = false ->
   data_dir <> "" -> endswith_sep data_dir = false ->
   p = String.append data_dir (String.append "/" filename)).
Proof.
  intros E. apply download_file_some in E. destruct E as [-> _].
  unfold os_path_join. repeat split; intros Hs.
  - now rewrite Hs.
  - intros [-> | Hend]; rewrite Hs; [reflexivity|].
    rewrite Hend, orb_true_r. reflexivity.
  - intros Hne Hend. rewrite Hs, Hend.
    apply String.eqb_neq in Hne. now rewrite Hne.
Qed.

(** What a call can change, whatever its outcome. *)
Lemma download_file_effects
    (url filename data_dir : string) (w w' : world) (o : outcome (option string)) :
  download_file url filename data_dir w = (o, w') ->
  (forall q, q <> os_path_join data_dir filename -> files w' q = files w q) /\
  (files w (os_path_join data_dir filename) <> None ->
   files w' = files w /\ sent w' = sent w) /\
  (files w (os_path_join data_dir filename) = None ->
   sent w' = sent w ++ [url]).
Proof.
  unfold download_file. st_run.
  set (fp := os_path_join data_dir filename).
  destruct (files w fp) as [n|] eqn:Hf; simpl.
  { intros E. injection E as <- <-. simpl.
    repeat split; trivial. intros Habs. discriminate Habs. }
  assert (forall (x : outcome (option string)) (v : world),
            files v = files w -> sent v = sent w ++ [url] ->
            (x, v) = (o, w') ->
            (forall q, q <> fp -> files w' q = files w q) /\
            (@None node <> None -> files w' = files w /\ sent w' = sent w) /\
            (@None node = None -> sent w' = sent w ++ [url])) as Hdone.
  { intros x v Hfv Hsv E. injection E as <- <-.
    repeat split; trivial; try congruence. }
  destruct (requests_get (sent w) url) as [r|e]; simpl.
  2:{ destruct (is_RequestException e); apply Hdone; reflexivity. }
  destruct (status_error r) as [e|]; simpl.
  { destruct (is_RequestException e); apply Hdone; reflexivity. }
  rewrite Hf.
  destruct (open_refused (files w) fp) as [e|]; simpl.
  { destruct (is_RequestException e); apply Hdone; reflexivity. }
  match goal with
  | |- context [write_chunks fp (chunks r) ?w0] =>
      destruct (write_chunks fp (chunks r) w0) as [x w1] eqn:Ew
  end.
  apply write_chunks_frame in Ew. destruct Ew as (Hs & _ & Hq & _).
  simpl in Hs.
  assert (forall q, q <> fp -> files w1 q = files w q) as Hq'.
  { intros q Hne. rewrite (Hq q Hne). apply String.eqb_neq in Hne.
    simpl. now rewrite Hne. }
  assert (forall (y : outcome (option string)) (v : world),
            files v = files w1 -> sent v = sent w1 ->
            (y, v) = (o, w') ->
            (forall q, q <> fp -> files w' q = files w q) /\
            (@None node <> None -> files w' = files w /\ sent w' = sent w) /\
            (@None node = None -> sent w' = sent w ++ [url])) as Hdone1.
  { intros y v Hfv Hsv E. injection E as <- <-.
    repeat split; try congruence.
    all: try (intros q Hne; rewrite Hfv; now apply Hq'). }
  destruct x as [[]|e]; simpl.
  - destruct (stream_error r) as [e|]; simpl.
    + destruct (is_RequestException e); apply Hdone1; reflexivity.
    + apply Hdone1; reflexivity.
  - destruct (is_RequestException e); apply Hdone1; reflexivity.
Qed.

(** X17. [download_file] never changes or removes a file that was
    there before the call, whatever the network and the disk do and
    however the call ends. *)
Theorem download_file_keeps_files
    (url filename data_dir : string) (w w' : world) (o : outcome (option string))
    (q : string) :
  download_file url filename data_dir w = (o, w') ->
  files w q <> None ->
  files w' q = files w q.
Proof.
  intros E Hq. apply download_file_effects in E.
  destruct E as (Hother & Hfound & _).
  destruct (string_dec q (os_path_join data_dir filename)) as [->|Hne].
  - destruct (Hfound Hq) as [-> _]. reflexivity.
  - now apply Hother.
Qed.

(** X18. A call sends one request when the target file is missing and
    none when it is there, however the call ends: a failed download is
    not tried again within the call. *)
Theorem download_file_one_request
    (url filename data_dir : string) (w w' : world) (o : outcome (option string)) :
  download_file url filename data_dir w = (o, w') ->
  sent w' = sent w ++ (if is_some (files w (os_path_join data_dir filename))
                       then [] else [url]).
Proof.
  intros E. apply download_file_effects in E.
  destruct E as (_ & Hfound & Hmissing).
  destruct (files w (os_path_join data_dir filename)) eqn:Hf; simpl.
  - destruct Hfound as [_ ->]; [discriminate|]. now rewrite app_nil_r.
  - now apply Hmissing.
Qed.

End Writes.

End DownloadProps.

(* ================================================================== *)
(** ** More properties of src/data_loader.py *)

Module DataLoaderMoreProps.

Import Config DataLoader LoaderTraces.
Import UtilsProps.
Local Open Scope py_scope.

Section Loaders.
Context `{disk : Disk}.

(** The load of the trip data, once the file is found. *)
Lemma load_raw_taxi_data_found (t : trace) :
  Path_exists RAW_TAXI_DATA_FILE = Normal true ->
  load_raw_taxi_data t
  = match pd_read_csv RAW_TAXI_DATA_FILE with
    | Normal df => (Normal df, t ++ reading_raw_events ++ [loaded_record df])
    | Raise e => (Raise e, t ++ reading_raw_events)
    end.
Proof.
  intros Hfound. unfold load_raw_taxi_data, exists_, read_csv,
    reading_raw_events, loaded_record. run.
  rewrite Hfound. simpl.
  destruct (pd_read_csv RAW_TAXI_DATA_FILE); simpl;
    repeat rewrite <- app_assoc; reflexivity.
Qed.

(** X10. When the trip file exists and [pd.read_csv] reads it,
    [load_raw_taxi_data] returns exactly the rows read, reads the file
    once, and the "Loaded n trips" record carries the number of those
    rows. *)
Theorem load_raw_taxi_data_success (t : trace) (df : DataFrame) :
  Path_exists RAW_TAXI_DATA_FILE = Normal true ->
  pd_read_csv RAW_TAXI_DATA_FILE = Normal df ->
  load_raw_taxi_data t
  = (Normal df,
     t ++ [FileOp "exists" RAW_TAXI_DATA_FILE;
           Log INFO [FText "Loading raw taxi data from ";
                     FPath RAW_TAXI_DATA_FILE; FText "..."];
           FileOp "read_csv" RAW_TAXI_DATA_FILE;
           Log INFO [FText "Loaded "; FNum (Z.of_nat (List.length df));
                     FText " trips."]]).
Proof.
  intros Hfound Hread. rewrite (load_raw_taxi_data_found t Hfound), Hread.
  reflexivity.
Qed.

(** X11. An error of [pd.read_csv] is not handled: when the trip file
    exists but cannot be read, [load_raw_taxi_data] raises that error,
    without an error record and without a "Loaded" record, and the
    script ([main]) ends there, before the boundary file is looked at. *)
Theorem load_raw_taxi_data_read_error (t : trace) (e : exn) :
  Path_exists RAW_TAXI_DATA_FILE = Normal true ->
  pd_read_csv RAW_TAXI_DATA_FILE = Raise e ->
  load_raw_taxi_data t = (Raise e, t ++ reading_raw_events) /\
  main t = (Raise e, t ++ reading_raw_events) /\
  existsb (fun ev => match ev with Log ERROR _ => true | _ => false end)
          reading_raw_events = false.
Proof.
  intros Hfound Hread.
  assert (load_raw_taxi_data t = (Raise e, t ++ reading_raw_events)) as Hload
    by (rewrite (load_raw_taxi_data_found t Hfound), Hread; reflexivity).
  repeat split; trivial.
  unfold main, bind. rewrite Hload. reflexivity.
Qed.

(** X12. Once the trips are loaded, [main] prints their first rows (five
    at most) and goes on to the boundaries.  It then fails only if the
    existence test of the boundary file itself raises, with that error;
    when the test answers, [main] returns normally: a missing or
    unreadable boundary file only leaves out the second print, which
    otherwise shows the first rows of the boundaries (five at most). *)
Theorem main_after_trips (t : trace) (df : DataFrame) :
  Path_exists RAW_TAXI_DATA_FILE = Normal true ->
  pd_read_csv RAW_TAXI_DATA_FILE = Normal df ->
  exists evs,
    snd (main t) = t ++ evs /\
    fst (main t)
    = match Path_exists BOROUGHS_FILE_PATH with
      | Raise e => Raise e
      | Normal _ => Normal tt
      end /\
    printed evs
    = firstn 5 df ::
      match Path_exists BOROUGHS_FILE_PATH, gpd_read_file BOROUGHS_FILE_PATH with
      | Normal true, Normal gdf => [firstn 5 gdf]
      | _, _ => []
      end /\
    Forall (fun frame => (List.length frame <= 5)%nat) (printed evs).
Proof.
  intros Hfound Hread.
  pose proof (load_raw_taxi_data_found t Hfound) as Hload.
  rewrite Hread in Hload.
  unfold main, bind. rewrite Hload.
  unfold load_borough_boundaries, exists_, read_file, print, head. run.
  destruct (Path_exists BOROUGHS_FILE_PATH) as [[|]|e]; simpl.
  - destruct (gpd_read_file BOROUGHS_FILE_PATH) as [gdf|e]; simpl;
      eexists; (split; [repeat rewrite <- app_assoc; reflexivity|]);
      (split; [reflexivity|]); (split; [reflexivity|]);
      repeat (apply Forall_cons; [| try apply Forall_nil]);
      first [exact (firstn_le_length 5 df) | exact (firstn_le_length 5 gdf)].
  - eexists. split; [repeat rewrite <- app_assoc; reflexivity|].
    split; [reflexivity|]. split; [reflexivity|].
    apply Forall_cons; [exact (firstn_le_length 5 df) | apply Forall_nil].
  - eexists. split; [repeat rewrite <- app_assoc; reflexivity|].
    split; [reflexivity|]. split; [reflexivity|].
    apply Forall_cons; [exact (firstn_le_length 5 df) | apply Forall_nil].
Qed.

End Loaders.

End DataLoaderMoreProps.

(* ================================================================== *)
(** ** More properties of src/utils.py *)

Module UtilsMoreProps.

Import Utils MoreContracts.
Import UtilsProps.
Local Open Scope py_scope.

Section Wrappers.
Context `{pandas : Pandas} `{h3 : H3} `{shapely : Shapely}.

(** X13. [geo_to_h3_safe] returns a cell only on the path through all
    three library calls, whatever pandas and h3 do: both null tests came
    out false, and the cell is the one [h3.geo_to_h3] returned for these
    very arguments.  It never returns a cell for a coordinate [pd.isna]
    flags, and never alters h3's answer. *)
Theorem geo_to_h3_safe_sound
    (lat lon resolution : pyval) (t t' : trace) (c : string) :
  geo_to_h3_safe lat lon resolution t = (Normal (Some c), t') ->
  h3_geo_to_h3 lat lon resolution = Normal c /\
  (exists na_lat, pd_isna lat = Normal na_lat /\ py_bool na_lat = Normal false) /\
  (exists na_lon, pd_isna lon = Normal na_lon /\ py_bool na_lon = Normal false).
Proof.
  unfold geo_to_h3_safe. run.
  destruct (pd_isna lat) as [a|]; simpl; [|intros E; discriminate E].
  destruct (py_bool a) as [[|]|] eqn:Ha; simpl; try (intros E; discriminate E).
  destruct (pd_isna lon) as [b|]; simpl; [|intros E; discriminate E].
  destruct (py_bool b) as [[|]|] eqn:Hb; simpl; try (intros E; discriminate E).
  destruct (h3_geo_to_h3 lat lon resolution) as [c'|]; simpl;
    intros E; inversion E; subst.
  split; [reflexivity|]. split; eexists; split; eauto.
Qed.

(** X14. The two boundary wrappers describe the same ring.  Under h3's
    contract for [geo_json], whenever [h3_to_polygon] builds a polygon
    for a cell, [get_h3_boundary_geojson] returns a Feature for it whose
    single ring is the polygon's shell, vertex for vertex in (lon, lat)
    order, closed by its first vertex; and whenever the GeoJSON wrapper
    returns null, so does the polygon wrapper. *)
Theorem boundary_wrappers_agree
    `{h3_boundary_ok : !H3BoundaryContract}
    (h3_index : pyval) (t1 t2 : trace) :
  (forall p t1',
     h3_to_polygon h3_index t1 = (Normal (Some p), t1') ->
     get_h3_boundary_geojson h3_index t2
     = (Normal (Some (feature (exterior p ++ firstn 1 (exterior p)) h3_index)), t2)) /\
  (forall t2',
     get_h3_boundary_geojson h3_index t2 = (Normal None, t2') ->
     exists t1', h3_to_polygon h3_index t1 = (Normal None, t1')).
Proof.
  split.
  - intros p t1' Hp.
    unfold h3_to_polygon, shapely_Polygon in Hp. run.
    destruct (h3_h3_to_geo_boundary h3_index false) as [b|e] eqn:Hb;
      simpl in Hp; [|inversion Hp].
    destruct (shapely_rejects (map lon_lat b)); simpl in Hp; inversion Hp; subst.
    pose proof (boundary_geo_json _ _ Hb) as Hj.
    rewrite map_app, <- firstn_map in Hj.
    unfold get_h3_boundary_geojson, try_except, bind, lift, ret.
    rewrite Hj. reflexivity.
  - intros t2' Hg.
    unfold get_h3_boundary_geojson in Hg. run.
    destruct (h3_h3_to_geo_boundary h3_index true) as [b'|e'] eqn:Hb';
      simpl in Hg; [inversion Hg|].
    unfold h3_to_polygon. run.
    destruct (h3_h3_to_geo_boundary h3_index false) as [b|e] eqn:Hb; simpl.
    + rewrite (boundary_geo_json _ _ Hb) in Hb'. discriminate Hb'.
    + eexists. reflexivity.
Qed.

End Wrappers.

End UtilsMoreProps.

(* ================================================================== *)
(** ** Properties of the output directories *)

Module ConfigImportProps.

Import Config ConfigImport.
Local Open Scope st_scope.

Section Directories.
Context `{disk : Disk} `{pathlib : Pathlib} `{pathlib_ok : !PathlibContract}.

(** A path is its own last ancestor; dropping the last component gives
    the one before. *)
Lemma firstn_all_app (p : path) (name : string) :
  firstn (List.length p) (p ++ [name]) = p.
Proof.
  rewrite firstn_app, Nat.sub_diag, firstn_all. simpl. apply app_nil_r.
Qed.

Lemma mkdir_makes_self (p : path) (s s' : tree) :
  mkdir_parents_exist_ok p s = (Normal tt, s') -> is_dir s' p = true.
Proof.
  intros E. rewrite <- (firstn_all p). eapply mkdir_makes; eauto.
Qed.

Lemma mkdir_makes_parent (p : path) (name : string) (s s' : tree) :
  mkdir_parents_exist_ok (p ++ [name]) s = (Normal tt, s') -> is_dir s' p = true.
Proof.
  intros E. rewrite <- (firstn_all_app p name). eapply mkdir_makes; eauto.
Qed.

(** The four calls, taken apart. *)
Lemma ensure_directories_steps (s s' : tree) :
  ensure_directories s = (Normal tt, s') ->
  exists s1 s2 s3,
    mkdir_parents_exist_ok PREPROCESSED_DATA_DIR s = (Normal tt, s1) /\
    mkdir_parents_exist_ok MODEL_DIR s1 = (Normal tt, s2) /\
    mkdir_parents_exist_ok FIGURES_DIR s2 = (Normal tt, s3) /\
    mkdir_parents_exist_ok MAPS_DIR s3 = (Normal tt, s').
Proof.
  unfold ensure_directories, st_bind.
  destruct (mkdir_parents_exist_ok PREPROCESSED_DATA_DIR s) as [[[]|e] s1] eqn:E1;
    [|intros E; discriminate E].
  destruct (mkdir_parents_exist_ok MODEL_DIR s1) as [[[]|e] s2] eqn:E2;
    [|intros E; discriminate E].
  destruct (mkdir_parents_exist_ok FIGURES_DIR s2) as [[[]|e] s3] eqn:E3;
    [|intros E; discriminate E].
  intros E. exists s1, s2, s3. auto.
Qed.

Lemma ensure_directories_made (s s' : tree) (d : path) :
  ensure_directories s = (Normal tt, s') ->
  In d output_directories -> is_dir s' d = true.
Proof.
  intros E Hd. apply ensure_directories_steps in E.
  destruct E as (s1 & s2 & s3 & E1 & E2 & E3 & E4).
  pose proof (fun q => mkdir_keeps _ _ _ _ q E2) as K2.
  pose proof (fun q => mkdir_keeps _ _ _ _ q E3) as K3.
  pose proof (fun q => mkdir_keeps _ _ _ _ q E4) as K4.
  unfold output_directories in Hd. simpl in Hd.
  destruct Hd as [<-|[<-|[<-|[<-|[<-|[<-|[]]]]]]].
  - apply K4, K3, K2. exact (mkdir_makes_parent _ _ _ _ E1).
  - apply K4, K3, K2. exact (mkdir_makes_self _ _ _ E1).
  - apply K4, K3. exact (mkdir_makes_self _ _ _ E2).
  - apply K4. exact (mkdir_makes_parent _ _ _ _ E3).
  - apply K4. exact (mkdir_makes_self _ _ _ E3).
  - exact (mkdir_makes_self _ _ _ E4).
Qed.

(** X15. When the module's directory set-up completes, the processed
    data, model, figure and map directories exist, together with their
    parents [data] and [reports], and every directory that was there
    before is still there. *)
Theorem ensure_directories_exist (s s' : tree) :
  ensure_directories s = (Normal tt, s') ->
  (forall d, In d output_directories -> is_dir s' d = true) /\
  (forall q, is_dir s q = true -> is_dir s' q = true).
Proof.
  intros E. split.
  - intros d Hd. eapply ensure_directories_made; eauto.
  - intros q Hq. apply ensure_directories_steps in E.
    destruct E as (s1 & s2 & s3 & E1 & E2 & E3 & E4).
    eapply mkdir_keeps; [exact E4|]. eapply mkdir_keeps; [exact E3|].
    eapply mkdir_keeps; [exact E2|]. eapply mkdir_keeps; [exact E1|]. exact Hq.
Qed.

(** X16. The set-up can be run again: after a run that completed, a
    second run completes too and leaves the directory tree as it is;
    more generally it does so on any tree that already has the four
    directories. *)
Theorem ensure_directories_again (s s' : tree) :
  (ensure_directories s = (Normal tt, s') ->
   ensure_directories s' = (Normal tt, s')) /\
  (is_dir s PREPROCESSED_DATA_DIR = true -> is_dir s MODEL_DIR = true ->
   is_dir s FIGURES_DIR = true -> is_dir s MAPS_DIR = true ->
   ensure_directories s = (Normal tt, s)).
Proof.
  assert (forall u,
            is_dir u PREPROCESSED_DATA_DIR = true -> is_dir u MODEL_DIR = true ->
            is_dir u FIGURES_DIR = true -> is_dir u MAPS_DIR = true ->
            ensure_directories u = (Normal tt, u)) as Hstable.
  { intros u H1 H2 H3 H4. unfold ensure_directories, st_bind.
    rewrite (mkdir_exist_ok _ _ H1), (mkdir_exist_ok _ _ H2),
            (mkdir_exist_ok _ _ H3). now apply mkdir_exist_ok. }
  split; [|apply Hstable].
  intros E. apply Hstable; eapply ensure_directories_made; eauto;
    unfold output_directories; simpl; auto 10.
Qed.

End Directories.

End ConfigImportProps.

(* ================================================================== *)
(** ** More reference libraries, and the code run on them *)

Module MoreReference.

Import Config ConfigImport Download Reference.

(** A small network: one good file, one that is not there, one whose
    stream breaks after the first chunk; any other request fails to
    connect. *)
Definition good_url : string := "https://example.org/borough.geo.json".
Definition missing_url : string := "https://example.org/missing.json".
Definition broken_url : string := "https://example.org/broken.json".

Definition ref_get (before : list string) (url : string) : outcome response :=
  if String.eqb url good_url then
    Normal (mkResponse None [[Byte.x7b; Byte.x22]; [Byte.x22; Byte.x7d]] None)
  else if String.eqb url missing_url then
    Normal (mkResponse (Some (Exn "HTTPError" [FText "404 Client Error"])) [] None)
  else if String.eqb url broken_url then
    Normal (mkResponse None [[Byte.x7b; Byte.x22]]
              (Some (Exn "ChunkedEncodingError" [FText "Connection broken"])))
  else Raise (Exn "ConnectionError" [FVal (VStr url)]).

Definition ref_requests : Requests :=
  {| requests_get := ref_get;
     is_RequestException e :=
       existsb (String.eqb (exn_class e))
         ["RequestException"; "HTTPError"; "ConnectionError"; "Timeout";
          "ChunkedEncodingError"; "ContentDecodingError"; "TooManyRedirects"] |}.

(** A disk that takes every write, except under [/readonly]. *)
Definition ref_fs : FileSystem :=
  {| open_refused _ p :=
       if String.prefix "/readonly/" p
       then Some (Exn "PermissionError" [FVal (VStr p)])
       else None;
     write_refused _ _ := None |}.

Definition empty_world : world := mkWorld (fun _ => None) [] [].

(** A directory tree, as the directories that were made (their
    ancestors are directories too) and the regular files that stand in
    the way. *)
Record ref_tree : Type := mkTree { dirs : list path; regular : list path }.

Definition ancestors (p : path) : list path :=
  map (fun n => firstn n p) (seq 0 (S (List.length p))).

Definition ref_is_dir (s : ref_tree) (q : path) : bool :=
  existsb (fun d => existsb (path_eqb q) (ancestors d)) (dirs s).

Definition ref_mkdir (p : path) (s : ref_tree) : outcome unit * ref_tree :=
  if ref_is_dir s p then (Normal tt, s)
  else if existsb (fun f => existsb (path_eqb f) (ancestors p)) (regular s)
  then (Raise (Exn "FileExistsError" [FPath p]), s)
  else (Normal tt, mkTree (p :: dirs s) (regular s)).

Definition ref_pathlib : Pathlib :=
  {| tree := ref_tree;
     is_dir := ref_is_dir;
     mkdir_parents_exist_ok := ref_mkdir |}.

(** A fresh checkout: the project root and nothing below it. *)
Definition bare_tree : ref_tree := mkTree [ref_root] [].

(** A disk whose [data] directory may not be searched: the existence
    test of the boundary file is refused by the operating system. *)
Definition permission_denied : exn :=
  Exn "PermissionError" [FText "[Errno 13] Permission denied: "; FPath (ref_root ++ ["data"; "borough.geo.json"])].

Definition denied_disk : Disk :=
  {| PROJECT_ROOT := ref_root;
     Path_exists p :=
       if path_eqb p (ref_root ++ ["data"; "borough.geo.json"])
       then Raise permission_denied
       else Normal true;
     pd_read_csv _ := Normal [[("pickup_latitude", lat_ok)]];
     gpd_read_file p := Raise (Exn "DriverError" [FPath p]) |}.

(** A disk with the trip file, holding one trip. *)
Definition one_trip : DataFrame := [[("pickup_latitude", lat_ok)]].
Definition trips_disk : Disk := ref_disk (Some (Normal one_trip)) None.
Definition unreadable_disk : Disk :=
  ref_disk (Some (Raise (Exn "ParserError" [FText "Error tokenizing data"]))) None.

End MoreReference.

Module MoreScenarios.

Import Config Utils DataLoader ConfigImport Download MoreContracts LoaderTraces.
Import Reference MoreReference.
Import DownloadProps DataLoaderMoreProps UtilsMoreProps ConfigImportProps.

Lemma path_eqb_eq (p q : path) : path_eqb p q = true <-> p = q.
Proof.
  revert q. induction p as [|a p IH]; intros [|b q]; simpl.
  - tauto.
  - split; discriminate.
  - split; discriminate.
  - rewrite andb_true_iff, String.eqb_eq, IH.
    split; [intros [-> ->]; reflexivity | intros E; injection E; auto].
Qed.

Lemma ancestor_of (q d : path) :
  existsb (path_eqb q) (ancestors d) = true <-> exists n, q = firstn n d.
Proof.
  rewrite existsb_exists. unfold ancestors. split.
  - intros [a [Ha E]]. apply path_eqb_eq in E. subst a.
    apply in_map_iff in Ha. destruct Ha as [n [<- _]]. now exists n.
  - intros [n ->].
    destruct (Nat.le_gt_cases n (List.length d)) as [Hle|Hgt].
    + exists (firstn n d). split; [|now apply path_eqb_eq].
      apply in_map_iff. exists n. split; [reflexivity | apply in_seq; lia].
    + exists (firstn n d). split; [|now apply path_eqb_eq].
      apply in_map_iff. exists (List.length d). split; [|apply in_seq; lia].
      rewrite firstn_all, firstn_all2 by lia. reflexivity.
Qed.

(** The reference libraries meet the contracts. *)
Lemma ref_pathlib_contract : @PathlibContract ref_pathlib.
Proof.
  split; cbn [is_dir mkdir_parents_exist_ok ref_pathlib tree]; unfold ref_mkdir.
  - intros p s s' n E.
    destruct (ref_is_dir s p) eqn:Hd.
    + injection E as <-. unfold ref_is_dir in *.
      apply existsb_exists in Hd. destruct Hd as [d [Hin Hd]].
      apply ancestor_of in Hd. destruct Hd as [m ->].
      apply existsb_exists. exists d. split; [exact Hin|].
      apply ancestor_of. exists (Nat.min n m). apply firstn_firstn.
    + destruct (existsb _ (regular s)); [discriminate E|].
      injection E as <-. unfold ref_is_dir. cbn [dirs existsb].
      apply orb_true_iff. left. apply ancestor_of. now exists n.
  - intros p s o s' q E Hq.
    destruct (ref_is_dir s p); [now injection E as _ <-|].
    destruct (existsb _ (regular s)); [now injection E as _ <-|].
    injection E as _ <-. unfold ref_is_dir in *. cbn [dirs existsb].
    apply orb_true_iff. right. exact Hq.
  - intros p s Hp. now rewrite Hp.
Qed.

Lemma toy_h3_boundary_contract : @H3BoundaryContract toy_h3.
Proof.
  split; simpl; unfold toy_boundary.
  - intros h b. destruct h; try discriminate.
    destruct (String.eqb s ""); [discriminate|].
    intros E. injection E as <-. reflexivity.
  - intros h e. destruct h; try (intros _; eexists; reflexivity).
    destruct (String.eqb s ""); [intros _; eexists; reflexivity | discriminate].
Qed.

#[local] Existing Instance ref_pandas.
#[local] Existing Instance toy_h3.
#[local] Existing Instance ref_shapely.
#[local] Existing Instance ref_requests.
#[local] Existing Instance ref_fs.
#[local] Existing Instance ref_pathlib.

(** A world where the boundary file is already in [data]. *)
Definition cached_world : world :=
  mkWorld (fun q => if String.eqb q "data/borough.geo.json"
                    then Some (File [Byte.x7b; Byte.x7d]) else None)
          [] [].

Example download_runs :
  fst (download_file good_url "borough.geo.json" "data" empty_world)
  = Normal (Some "data/borough.geo.json") /\
  files (snd (download_file good_url "borough.geo.json" "data/" empty_world))
        "data/borough.geo.json"
  = Some (File [Byte.x7b; Byte.x22; Byte.x22; Byte.x7d]) /\
  fst (download_file missing_url "borough.geo.json" "data" empty_world)
  = Normal None /\
  fst (download_file "ftp://nowhere" "borough.geo.json" "data" empty_world)
  = Normal None /\
  fst (download_file good_url "borough.geo.json" "/readonly" empty_world)
  = Raise (Exn "PermissionError" [FVal (VStr "/readonly/borough.geo.json")]).
Proof. repeat split; reflexivity. Qed.

Lemma download_file_cached_witness :
  exists w',
    download_file missing_url "borough.geo.json" "data" cached_world
    = (Normal (Some "data/borough.geo.json"), w') /\
    sent w' = [] /\ files w' = files cached_world.
Proof.
  destruct (download_file_cached (requests := ref_requests) (fs := ref_fs) missing_url "borough.geo.json" "data" cached_world)
    as (w' & E & Hs & Hf & _).
  - simpl. discriminate.
  - exists w'. repeat split; assumption.
Defined.


Lemma download_file_request_failure_witness :
  exists w',
    download_file missing_url "borough.geo.json" "data" empty_world
    = (Normal None, w') /\
    files w' = files empty_world.
Proof.
  destruct (download_file_request_failure (requests := ref_requests) (fs := ref_fs) missing_url "borough.geo.json" "data"
              empty_world (Exn "HTTPError" [FText "404 Client Error"]) eq_refl)
    as (w' & E & Hf & _).
  - right. eexists. split; reflexivity.
  - reflexivity.
  - exists w'. split; assumption.
Defined.

Lemma download_file_partial_witness :
  exists w',
    download_file broken_url "borough.geo.json" "data" empty_world
    = (Normal None, w') /\
    files w' "data/borough.geo.json" = Some (File [Byte.x7b; Byte.x22]) /\
    exists w'',
      download_file good_url "borough.geo.json" "data" w'
      = (Normal (Some "data/borough.geo.json"), w'') /\
      sent w'' = sent w'.
Proof.
  destruct (download_file_partial (requests := ref_requests) (fs := ref_fs) broken_url "borough.geo.json" "data" empty_world
              _ _ eq_refl eq_refl eq_refl eq_refl eq_refl eq_refl
              (fun _ _ => eq_refl))
    as (w' & E & Hc & Hnext).
  exists w'. split; [exact E|]. split; [exact Hc|].
  destruct (Hnext good_url) as (w'' & E2 & Hs & _).
  exists w''. split; assumption.
Defined.

Lemma download_file_no_request_exception_witness :
  is_RequestException
    (Exn "PermissionError" [FVal (VStr "/readonly/borough.geo.json")]) = false.
Proof.
  apply (download_file_no_request_exception (requests := ref_requests) (fs := ref_fs) good_url "borough.geo.json" "/readonly"
           empty_world
           (snd (download_file good_url "borough.geo.json" "/readonly" empty_world))).
  reflexivity.
Defined.

Lemma download_file_open_refused_witness :
  exists w',
    download_file good_url "borough.geo.json" "/readonly" empty_world
    = (Raise (Exn "PermissionError" [FVal (VStr "/readonly/borough.geo.json")]), w') /\
    files w' = files empty_world /\ sent w' = [good_url].
Proof.
  destruct (download_file_open_refused (requests := ref_requests) (fs := ref_fs) good_url "borough.geo.json" "/readonly"
              empty_world _ _ eq_refl eq_refl eq_refl eq_refl eq_refl)
    as (w' & E & Hf & Hs & _).
  exists w'. repeat split; assumption.
Defined.

Lemma download_file_returns_existing_witness :
  files (snd (download_file good_url "borough.geo.json" "data" empty_world))
        "data/borough.geo.json" <> None.
Proof.
  apply (download_file_returns_existing (requests := ref_requests) (fs := ref_fs) good_url "borough.geo.json" "data"
           empty_world _ "data/borough.geo.json").
  reflexivity.
Defined.

Lemma download_file_twice_witness :
  exists w'',
    download_file missing_url "borough.geo.json" "data"
      (snd (download_file good_url "borough.geo.json" "data" empty_world))
    = (Normal (Some "data/borough.geo.json"), w'') /\
    sent w'' = [good_url].
Proof.
  destruct (download_file_twice (requests := ref_requests) (fs := ref_fs) good_url missing_url "borough.geo.json" "data"
              empty_world _ "data/borough.geo.json" eq_refl)
    as (w'' & E & Hs & _).
  exists w''. split; assumption.
Defined.

Lemma download_file_location_witness :
  exists p_abs p_dir p_sep,
    fst (download_file good_url "/tmp/borough.geo.json" "data" empty_world)
    = Normal (Some p_abs) /\
    fst (download_file good_url "borough.geo.json" "data/" empty_world)
    = Normal (Some p_dir) /\
    fst (download_file good_url "borough.geo.json" "data" empty_world)
    = Normal (Some p_sep) /\
    p_abs = "/tmp/borough.geo.json" /\
    p_dir = String.append "data/" "borough.geo.json" /\
    p_sep = String.append "data" (String.append "/" "borough.geo.json").
Proof.
  exists (os_path_join "data" "/tmp/borough.geo.json"),
         (os_path_join "data/" "borough.geo.json"),
         (os_path_join "data" "borough.geo.json").
  do 3 (split; [reflexivity|]).
  pose proof (download_file_location (requests := ref_requests) (fs := ref_fs)
                good_url "/tmp/borough.geo.json" "data" empty_world
                (snd (download_file good_url "/tmp/borough.geo.json" "data" empty_world))
                (os_path_join "data" "/tmp/borough.geo.json") eq_refl)
    as (Habs & _ & _).
  pose proof (download_file_location (requests := ref_requests) (fs := ref_fs)
                good_url "borough.geo.json" "data/" empty_world
                (snd (download_file good_url "borough.geo.json" "data/" empty_world))
                (os_path_join "data/" "borough.geo.json") eq_refl)
    as (_ & Hdirect & _).
  pose proof (download_file_location (requests := ref_requests) (fs := ref_fs)
                good_url "borough.geo.json" "data" empty_world
                (snd (download_file good_url "borough.geo.json" "data" empty_world))
                (os_path_join "data" "borough.geo.json") eq_refl)
    as (_ & _ & Hsep).
  split; [exact (Habs eq_refl)|].
  split; [exact (Hdirect eq_refl (or_intror eq_refl))|].
  apply (Hsep eq_refl); [discriminate | reflexivity].
Defined.

Lemma load_raw_taxi_data_success_witness :
  fst (@load_raw_taxi_data trips_disk []) = Normal one_trip /\
  List.length (snd (@load_raw_taxi_data trips_disk [])) = 4%nat.
Proof.
  rewrite (load_raw_taxi_data_success (disk := trips_disk) [] one_trip
             eq_refl eq_refl).
  split; reflexivity.
Defined.

Lemma load_raw_taxi_data_read_error_witness :
  @main unreadable_disk []
  = (Raise (Exn "ParserError" [FText "Error tokenizing data"]),
     @reading_raw_events unreadable_disk).
Proof.
  destruct (load_raw_taxi_data_read_error (disk := unreadable_disk) []
              (Exn "ParserError" [FText "Error tokenizing data"])
              eq_refl eq_refl)
    as (_ & Hmain & _).
  exact Hmain.
Defined.

Lemma main_after_trips_witness :
  exists evs,
    @main trips_disk [] = (Normal tt, evs) /\ printed evs = [one_trip].
Proof.
  destruct (main_after_trips (disk := trips_disk) [] one_trip eq_refl eq_refl)
    as (evs & Htrace & Hout & Hprinted & _).
  exists evs. split; [|exact Hprinted].
  rewrite (surjective_pairing (@main trips_disk [])), Htrace, Hout. reflexivity.
Defined.

Lemma geo_to_h3_safe_sound_witness :
  h3_geo_to_h3 lat_ok lon_ok (VInt H3_RESOLUTION) = Normal the_cell.
Proof.
  apply (geo_to_h3_safe_sound (pandas := ref_pandas) (h3 := toy_h3)
           lat_ok lon_ok (VInt H3_RESOLUTION) [] [] the_cell eq_refl).
Defined.

Lemma boundary_wrappers_agree_witness :
  get_h3_boundary_geojson (VStr the_cell) []
  = (Normal (Some (feature (map lon_lat toy_hexagon
                            ++ firstn 1 (map lon_lat toy_hexagon))
                           (VStr the_cell))), []).
Proof.
  destruct (boundary_wrappers_agree (h3 := toy_h3) (shapely := ref_shapely)
              (h3_boundary_ok := toy_h3_boundary_contract)
              (VStr the_cell) [] [])
    as [Hagree _].
  exact (Hagree (mkPolygon (map lon_lat toy_hexagon)) [] eq_refl).
Defined.

Lemma ensure_directories_exist_witness :
  forallb (ref_is_dir (snd (@ensure_directories empty_disk ref_pathlib bare_tree)))
          (@output_directories empty_disk) = true.
Proof.
  destruct (ensure_directories_exist (disk := empty_disk)
              (pathlib := ref_pathlib) (pathlib_ok := ref_pathlib_contract)
              bare_tree
              (snd (@ensure_directories empty_disk ref_pathlib bare_tree))
              eq_refl)
    as [Hmade _].
  apply forallb_forall. exact Hmade.
Defined.

Lemma ensure_directories_again_witness :
  @ensure_directories empty_disk ref_pathlib
    (snd (@ensure_directories empty_disk ref_pathlib bare_tree))
  = (Normal tt, snd (@ensure_directories empty_disk ref_pathlib bare_tree)).
Proof.
  destruct (ensure_directories_again (disk := empty_disk)
              (pathlib := ref_pathlib) (pathlib_ok := ref_pathlib_contract)
              bare_tree
              (snd (@ensure_directories empty_disk ref_pathlib bare_tree)))
    as [Hagain _].
  exact (Hagain eq_refl).
Defined.

(** A regular file named [models] stands in the way: the set-up raises
    at the second directory, with [data/processed] already made. *)
Example ensure_directories_blocked :
  fst (@ensure_directories empty_disk ref_pathlib
         (mkTree [ref_root] [ref_root ++ ["models"]]))
  = Raise (Exn "FileExistsError" [FPath (ref_root ++ ["models"])]) /\
  ref_is_dir (snd (@ensure_directories empty_disk ref_pathlib
                     (mkTree [ref_root] [ref_root ++ ["models"]])))
             (ref_root ++ ["data"; "processed"]) = true.
Proof. split; reflexivity. Qed.

Lemma download_file_keeps_files_witness :
  files (snd (download_file good_url "trips.csv" "data" cached_world))
        "data/borough.geo.json"
  = files cached_world "data/borough.geo.json".
Proof.
  apply (download_file_keeps_files (requests := ref_requests) (fs := ref_fs)
           good_url "trips.csv" "data" cached_world _ _
           "data/borough.geo.json" (surjective_pairing _)).
  simpl. discriminate.
Defined.

Lemma download_file_one_request_witness :
  sent (snd (download_file "ftp://nowhere" "trips.csv" "data" cached_world))
  = sent cached_world ++ ["ftp://nowhere"].
Proof.
  exact (download_file_one_request (requests := ref_requests) (fs := ref_fs)
           "ftp://nowhere" "trips.csv" "data" cached_world _ _
           (surjective_pairing _)).
Defined.

(** C5. [load_borough_boundaries] can raise: on a disk where the
    existence test of the boundary file is refused, it raises the
    operating system's error instead of returning; and [main], with the
    trips loaded and printed, ends with it. *)
Lemma load_borough_boundaries_can_raise :
  @load_borough_boundaries denied_disk []
  = (Raise permission_denied, [FileOp "exists" (@BOROUGHS_FILE_PATH denied_disk)]) /\
  ~ (exists r t', @load_borough_boundaries denied_disk [] = (Normal r, t')) /\
  fst (@main denied_disk []) = Raise permission_denied.
Proof.
  split; [reflexivity|]. split; [|reflexivity].
  intros (r & t' & E). vm_compute in E. discriminate E.
Qed.

End MoreScenarios.

(* ================================================================== *)
(** ** src/utils.py over libraries that keep a state *)

(** Whether two calls of [geo_to_h3_safe] agree is a question about
    what may change between them.  Here pandas and h3 are given a state
    of their own (tables built on first use, caches, counters), which
    every call may read and change; the wrapper is the same code, run
    over that state. *)
Module StatefulLibraries.

Local Open Scope st_scope.

Class Runtime : Type := {
  lib_state : Type;
  (** [pandas.isna] *)
  pd_isna_in : pyval -> ST lib_state pyval;
  (** [h3.geo_to_h3] *)
  h3_geo_to_h3_in : pyval -> pyval -> pyval -> ST lib_state string
}.

Definition st_lift {S A} (o : outcome A) : ST S A := fun s => (o, s).



Section Code.
Context `{runtime : Runtime}.

(** Safely convert lat/lon to H3, handling potential errors. *)
Definition geo_to_h3_safe_in (lat lon resolution : pyval)
  : ST lib_state (option string) :=
  try_except_if (fun _ => true)
    (na_lat <- pd_isna_in lat ;;
     b_lat <- st_lift (py_bool na_lat) ;;
     if (b_lat : bool) then st_ret None
     else
       na_lon <- pd_isna_in lon ;;
       b_lon <- st_lift (py_bool na_lon) ;;
       if (b_lon : bool) then st_ret None
       else
         c <- h3_geo_to_h3_in lat lon resolution ;;
         st_ret (Some c))
    (fun e => st_ret None).

(** Two calls, one right after the other. *)
Definition call_twice (lat lon resolution : pyval)
  : ST lib_state (option string * option string) :=
  first <- geo_to_h3_safe_in lat lon resolution ;;
  second <- geo_to_h3_safe_in lat lon resolution ;;
  st_ret (first, second).

End Code.

(** Libraries without a state of their own, as in [Libraries]. *)
Definition stateless `{pandas : Pandas} `{h3 : H3} : Runtime :=
  {| lib_state := unit;
     pd_isna_in v := st_lift (pd_isna v);
     h3_geo_to_h3_in lat lon resolution :=
       st_lift (h3_geo_to_h3 lat lon resolution) |}.


(** An h3 whose grid shifts with every call. *)
Definition drifting : Runtime :=
  {| lib_state := nat;
     pd_isna_in v := fun n => (Reference.ref_isna v, n);
     h3_geo_to_h3_in lat lon resolution :=
       fun n => (if Nat.even n then Normal "cell-a" else Normal "cell-b", S n) |}.

End StatefulLibraries.

Module DeterminismProps.

Import Utils StatefulLibraries.
Local Open Scope st_scope.

Ltac st_unfold :=
  unfold geo_to_h3_safe_in, try_except_if, st_bind, st_lift, st_ret in *;
  simpl in *.

(** Over libraries without state the wrapper is [Utils.geo_to_h3_safe]. *)
Lemma geo_to_h3_safe_in_stateless `{pandas : Pandas} `{h3 : H3}
    (lat lon resolution : pyval) (t : trace) :
  fst (geo_to_h3_safe_in (runtime := stateless) lat lon resolution tt)
  = fst (geo_to_h3_safe lat lon resolution t).
Proof.
  unfold geo_to_h3_safe, try_except, bind, lift, ret. st_unfold.
  destruct (pd_isna lat) as [a|]; simpl; [|reflexivity].
  destruct (py_bool a) as [[|]|]; simpl; try reflexivity.
  destruct (pd_isna lon) as [b|]; simpl; [|reflexivity].
  destruct (py_bool b) as [[|]|]; simpl; try reflexivity.
  destruct (h3_geo_to_h3 lat lon resolution); reflexivity.
Qed.

Section Wrapper.
Context `{runtime : Runtime}.




End Wrapper.

End DeterminismProps.

Module DeterminismScenarios.

Import Config Utils StatefulLibraries Reference DeterminismProps.

(** Over an h3 whose answers drift, two calls in a row disagree: the
    wrapper adds no determinism of its own. *)
Example drifting_calls_differ :
  fst (call_twice (runtime := drifting) lat_ok lon_ok (VInt H3_RESOLUTION) 0%nat)
  = Normal (Some "cell-a", Some "cell-b").
Proof. reflexivity. Qed.


End DeterminismScenarios.
